(** * github-repo-summarizer: the retrieval-and-selection pipeline

    A shallow embedding of [services/github.py], [services/processor.py],
    [services/orchestrator.py], [services/llm.py] and the endpoint of
    [api/routes.py].

    A Python [str] is modelled as a [string]: the sequence of its code
    points, in the range below 256 that [ascii] covers.  Comparison of two
    [str] values is comparison of their code point sequences, which is
    [String.le].  A Python [int] is a [Z].  A [list] object that the code
    mutates in place is threaded through explicitly: the functions that call
    [paths.sort()] return the new contents of the caller's list next to
    their result.

    The remote services are taken as they answer: every request gets a
    response, and the JSON bodies have the shape the GitHub API gives them.
    The [pathspec] library, a dependency, is written out for the patterns
    the repository uses. *)

From Stdlib Require Import ZArith Ascii.
From stdpp Require Import strings list sorting gmap.

Local Open Scope Z_scope.

(** ** Python [str] primitives *)

Module PyStr.

Definition slash : ascii := "/"%char.

(** [len(s)] *)
Definition len (s : string) : Z := Z.of_nat (String.length s).

(** [s.split('/')]: never empty, one more segment than there are
    separators. *)
Fixpoint split (sep : ascii) (s : string) : list string :=
  match s with
  | EmptyString => [""]
  | String c s' =>
      if decide (c = sep) then "" :: split sep s'
      else match split sep s' with
           | seg :: segs => String c seg :: segs
           | [] => [String c ""]
           end
  end.

(** [s.rstrip('/')]: every trailing separator is removed. *)
Fixpoint rstrip (ch : ascii) (s : string) : string :=
  match s with
  | EmptyString => ""
  | String c s' =>
      match rstrip ch s' with
      | EmptyString => if decide (c = ch) then "" else String c ""
      | r => String c r
      end
  end.

(** [s.startswith(p)] *)
Fixpoint startswith (s p : string) : bool :=
  match p, s with
  | EmptyString, _ => true
  | String _ _, EmptyString => false
  | String a p', String b s' => bool_decide (a = b) && startswith s' p'
  end.

(** [sub in s] *)
Fixpoint contains (sub s : string) : bool :=
  startswith s sub ||
  match s with
  | EmptyString => false
  | String _ s' => contains sub s'
  end.

(** [s.endswith(p)] *)
Definition endswith (s p : string) : bool :=
  startswith (String.rev s) (String.rev p).

Fixpoint take (n : nat) (s : string) : string :=
  match n, s with
  | S n', String c s' => String c (take n' s')
  | _, _ => ""
  end.

(** [s[:n]], with Python's reading of a negative bound. *)
Definition slice_to (n : Z) (s : string) : string :=
  if 0 <=? n then take (Z.to_nat n) s
  else take (Z.to_nat (len s + n)) s.

(** [c.lower()] on the code points below 256: the ASCII capitals and the
    Latin-1 capitals (all of 0xC0..0xDE but the multiplication sign). *)
Definition lower_char (c : ascii) : ascii :=
  let n := N_of_ascii c in
  if ((65 <=? n) && (n <=? 90))%N then ascii_of_N (n + 32)
  else if ((192 <=? n) && (n <=? 222) && negb (n =? 215))%N
       then ascii_of_N (n + 32)
  else c.

Fixpoint lower (s : string) : string :=
  match s with
  | EmptyString => ""
  | String c s' => String (lower_char c) (lower s')
  end.

(** [c.isspace()] on the code points below 256. *)
Definition isspace (c : ascii) : bool :=
  let n := N_of_ascii c in
  (((9 <=? n) && (n <=? 13)) || ((28 <=? n) && (n <=? 32))
   || (n =? 133) || (n =? 160))%N.

Fixpoint lstrip (s : string) : string :=
  match s with
  | EmptyString => ""
  | String c s' => if isspace c then lstrip s' else s
  end.

(** [s.strip()] *)
Definition strip (s : string) : string :=
  String.rev (lstrip (String.rev (lstrip s))).

(** The truth value of a [str]. *)
Definition truthy (s : string) : bool :=
  match s with EmptyString => false | _ => true end.

(** ["sep".join(l)] *)
Fixpoint join (sep : string) (l : list string) : string :=
  match l with
  | [] => ""
  | [s] => s
  | s :: l' => s +:+ sep +:+ join sep l'
  end.

End PyStr.

(** ** Python [list] primitives *)

Module PyList.

(** [l[:n]], with Python's reading of a negative bound. *)
Definition slice_to {A} (n : Z) (l : list A) : list A :=
  if 0 <=? n then take (Z.to_nat n) l
  else take (Z.to_nat (Z.of_nat (length l) + n)) l.

(** [l[i]], with Python's reading of a negative index; [None] stands for
    [IndexError]. *)
Definition index {A} (l : list A) (i : Z) : option A :=
  let j := if 0 <=? i then i else Z.of_nat (length l) + i in
  if 0 <=? j then l !! Z.to_nat j else None.

(** [l.sort()] on a list of [str]: the list ordered by code points. *)
Definition sort (l : list string) : list string :=
  merge_sort String.le l.

End PyList.

(** ** [services/processor.py]: the File Prioritizer *)

Definition key_files : list string :=
  ["README.md"; "README"; "package.json"; "pyproject.toml";
   "requirements.txt"; "Dockerfile"; "docker-compose.yml"; "setup.py";
   "go.mod"; "Cargo.toml"].

Definition core_names : list string :=
  ["main.py"; "app.py"; "index.js"; "index.ts"; "app.js"; "app.ts";
   "main.go"; "main.rs"].

Definition source_exts : list string :=
  [".py"; ".js"; ".ts"; ".go"; ".rs"; ".java"; ".cpp"; ".c"; ".h"; ".cs";
   ".rb"; ".php"].

(** [path.split('/')[-1]] *)
Definition filename (path : string) : string :=
  default "" (PyList.index (PyStr.split PyStr.slash path) (-1)).

(** [len(path.split('/'))] *)
Definition depth (path : string) : Z :=
  Z.of_nat (length (PyStr.split PyStr.slash path)).

(** The three [if] conditions of the selection loops. *)
Definition is_key_file (path : string) : bool :=
  bool_decide (filename path ∈ key_files)
  || PyStr.contains "readme" (PyStr.lower (filename path)).

Definition is_core_file (path : string) : bool :=
  bool_decide (filename path ∈ core_names) && (depth path <=? 3).

Definition is_source_file (path : string) : bool :=
  existsb (fun ext => PyStr.endswith path ext) source_exts.

(** [if path not in priority_files: priority_files.append(path)] *)
Definition append_new (priority_files : list string) (path : string)
  : list string :=
  if decide (path ∈ priority_files) then priority_files
  else priority_files ++ [path].

(** A [for path in paths] loop that appends the paths passing [cond]. *)
Definition select_loop (cond : string -> bool) (paths : list string)
    (priority_files : list string) : list string :=
  fold_left (fun acc path => if cond path then append_new acc path else acc)
            paths priority_files.

(** The third loop, which leaves at the [break] once the budget is
    reached. *)
Fixpoint fill_loop (max_files : Z) (paths : list string)
    (priority_files : list string) : list string :=
  match paths with
  | [] => priority_files
  | path :: rest =>
      if Z.of_nat (length priority_files) >=? max_files then priority_files
      else fill_loop max_files rest
             (if is_source_file path then append_new priority_files path
              else priority_files)
  end.

(** [prioritize_files(paths, max_files)].  The first component is the value
    returned, the second the contents of the caller's list [paths] when the
    call returns. *)
Definition prioritize_files (paths : list string) (max_files : Z)
  : list string * list string :=
  let paths := PyList.sort paths in
  let priority_files := [] in
  let priority_files := select_loop is_key_file paths priority_files in
  let priority_files := select_loop is_core_file paths priority_files in
  let priority_files := fill_loop max_files paths priority_files in
  (PyList.slice_to max_files priority_files, paths).

(** The value returned by [prioritize_files]. *)
Definition prioritized (paths : list string) (max_files : Z) : list string :=
  fst (prioritize_files paths max_files).

(** The list that [prioritize_files] has built when it reaches its
    [return]. *)
Definition selection (paths : list string) (max_files : Z) : list string :=
  let paths := PyList.sort paths in
  fill_loop max_files paths
    (select_loop is_core_file paths (select_loop is_key_file paths [])).

(** [x] comes before [y] in [l]. *)
Definition precedes (x y : string) (l : list string) : Prop :=
  exists l1 l2 l3, l = l1 ++ x :: l2 ++ y :: l3.

(** [build_tree_string(paths)]: the listing, and the contents of the
    caller's list when the call returns. *)
Definition build_tree_string (paths : list string) : string * list string :=
  let paths := PyList.sort paths in
  (PyStr.join (String "010" "") paths, paths).

(** *** List objects

    The lists handed to [build_tree_string] and [prioritize_files] are
    objects of the caller.  A store maps the identity of a list object to
    its contents; a call on the object at [l] reads the contents, runs the
    body and writes the contents back, so every other name of the same
    object sees the change. *)

Definition loc := positive.

Definition call_on {A} (f : list string -> A * list string) (l : loc)
    (st : gmap loc (list string)) : option (A * gmap loc (list string)) :=
  match st !! l with
  | Some paths => let '(r, paths') := f paths in Some (r, <[l := paths']> st)
  | None => None
  end.

(** ** [services/processor.py]: the Path Filter *)

Definition IGNORE_PATTERNS : list string :=
  [ "*.png"; "*.jpg"; "*.jpeg"; "*.gif"; "*.ico"; "*.pdf"; "*.eot"; "*.svg";
    "*.ttf"; "*.woff"; "*.woff2"; "*.mp4"; "*.webm"; "*.mp3"; "*.wav";
    "*.zip"; "*.tar"; "*.gz"; "*.7z"; "*.exe"; "*.dll"; "*.so"; "*.dylib";
    "node_modules/"; "venv/"; ".venv/"; "env/"; ".env"; "build/"; "dist/";
    "target/"; "out/"; "__pycache__/"; "*.pyc"; ".next/"; ".nuxt/";
    ".cache/";
    ".git/"; ".github/"; ".vscode/"; ".idea/"; "*.iml";
    "package-lock.json"; "yarn.lock"; "pnpm-lock.yaml"; "poetry.lock";
    "Pipfile.lock"; "Gemfile.lock"; "Cargo.lock";
    "__init__.py" ].

(** The [pathspec] library is a dependency, not code of the repository.
    Its gitignore semantics are written out for the three shapes of line
    that [IGNORE_PATTERNS] holds, none of which has an inner separator, so
    each of them applies at any depth:
    - [name]: some component of the path is [name];
    - [*suffix]: some component of the path ends with [suffix];
    - [name/]: some component of the path that has something below it is
      [name].
    The library compiles each line to an anchored regular expression and
    matches it from the start of the path: an optional prefix "one or more
    dots, then a separator", the component ([name], or "any code points
    but a separator, then the suffix"), and then "optionally a separator
    and any number of dots" (for [name/], "a separator and any number of
    dots"), then the end.  As Python reads them, a dot is any code point
    but a line feed, and the end is the end of the path or the place
    before a line feed that ends the path. *)
Module PathSpec.

Inductive pattern :=
  | Name (name : string)
  | Suffix (suffix : string)
  | Dir (name : string).

(** [GitWildMatchPattern(line)] *)
Definition GitWildMatchPattern (line : string) : pattern :=
  if PyStr.endswith line "/" then Dir (PyStr.slice_to (-1) line)
  else match line with
       | String "*" suffix => Suffix suffix
       | _ => Name line
       end.

(** [PathSpec.from_lines(GitWildMatchPattern, lines)] *)
Definition from_lines (lines : list string) : list pattern :=
  GitWildMatchPattern <$> lines.

Definition line_feed : ascii := "010"%char.

(** What follows the literal [p] at the start of [s]. *)
Fixpoint strip_prefix (p s : string) : option string :=
  match p, s with
  | EmptyString, _ => Some s
  | String _ _, EmptyString => None
  | String a p', String b s' =>
      if decide (a = b) then strip_prefix p' s' else None
  end.

(** "Any number of dots, then the end". *)
Fixpoint dots_end (s : string) : bool :=
  match s with
  | EmptyString => true
  | String c s' =>
      if decide (c = line_feed) then bool_decide (s' = "") else dots_end s'
  end.

(** "Optionally a separator and any number of dots, then the end". *)
Definition below_end (t : string) : bool :=
  match t with
  | EmptyString => true
  | String c t' =>
      if decide (c = PyStr.slash) then dots_end t'
      else bool_decide (c = line_feed) && bool_decide (t' = "")
  end.

(** "A separator and any number of dots, then the end". *)
Definition dir_end (t : string) : bool :=
  match t with
  | EmptyString => false
  | String c t' => bool_decide (c = PyStr.slash) && dots_end t'
  end.

(** "Any code points but a separator, then the suffix", and what follows:
    [taken] holds, last first, the code points taken so far. *)
Fixpoint suffix_here (suffix taken rest : string) : bool :=
  PyStr.endswith (String.rev taken) suffix && below_end rest
  || match rest with
     | EmptyString => false
     | String c rest' =>
         if decide (c = PyStr.slash) then false
         else suffix_here suffix (String c taken) rest'
     end.

(** The part of the expression after the optional prefix, against the rest
    of the path. *)
Definition match_here (p : pattern) (rest : string) : bool :=
  match p with
  | Name name =>
      match strip_prefix name rest with
      | Some t => below_end t
      | None => false
      end
  | Suffix suffix => suffix_here suffix "" rest
  | Dir name =>
      match strip_prefix name rest with
      | Some t => dir_end t
      | None => false
      end
  end.

(** The whole expression: the optional prefix takes nothing, or at least
    one dot and then a separator.  [seen] counts the code points taken,
    [after_sep] tells whether the last of them is a separator and [dots]
    whether none of them is a line feed. *)
Fixpoint match_from (p : pattern) (seen : nat) (after_sep dots : bool)
    (rest : string) : bool :=
  (bool_decide (seen = 0%nat)
   || (after_sep && dots && bool_decide (2 <= seen)%nat))
  && match_here p rest
  || match rest with
     | EmptyString => false
     | String c rest' =>
         match_from p (S seen) (bool_decide (c = PyStr.slash))
           (dots && negb (bool_decide (c = line_feed))) rest'
     end.

(** [normalize_file(file)]: a leading [/] or [./] is dropped. *)
Definition normalize_file (file : string) : string :=
  match file with
  | String "/" s => s
  | String "." (String "/" s) => s
  | _ => file
  end.

(** [spec.match_file(file)]: no line is a negation, so the file matches as
    soon as one pattern does. *)
Definition match_file (spec : list pattern) (file : string) : bool :=
  existsb (fun p => match_from p 0 false true (normalize_file file)) spec.

End PathSpec.

(** [filter_paths(paths)] *)
Definition filter_paths (paths : list string) : list string :=
  let spec := PathSpec.from_lines IGNORE_PATTERNS in
  List.filter (fun path => negb (PathSpec.match_file spec path)) paths.

(** ** [services/github.py] *)

(** The exceptions that the pipeline raises, with their messages.
    [IndexError] is what an index out of range raises. *)
Inductive exn :=
  | ValueError (msg : string)
  | GitHubClientError (msg : string)
  | IndexError.

(** [str(e)] *)
Definition exn_str (e : exn) : string :=
  match e with
  | ValueError msg | GitHubClientError msg => msg
  | IndexError => "list index out of range"
  end.

(** A computation that returns a value or raises. *)
Definition result (A : Type) : Type := exn + A.

Definition raise {A} (e : exn) : result A := inl e.

#[global] Instance result_bind : MBind result := fun A B k m =>
  match m with
  | inl e => inl e
  | inr a => k a
  end.

#[global] Instance result_ret : MRet result := fun A a => inr a.

(** [try: m except Exception as e: raise h(e)] *)
Definition try_except {A} (m : result A) (h : exn -> exn) : result A :=
  match m with
  | inl e => inl (h e)
  | inr a => inr a
  end.

(** [parse_github_url(url)] *)
Definition parse_github_url (url : string) : result (string * string) :=
  let url := PyStr.rstrip PyStr.slash url in
  let parts := PyStr.split PyStr.slash url in
  if (Z.of_nat (length parts) >=? 2) && PyStr.contains "github.com" url then
    match PyList.index parts (-1), PyList.index parts (-2) with
    | Some repo, Some owner =>
        let repo :=
          if PyStr.endswith repo ".git" then PyStr.slice_to (-4) repo
          else repo in
        inr (owner, repo)
    | _, _ => raise IndexError
    end
  else raise (ValueError "Invalid GitHub URL format.").

(** An entry of the tree listing: [item["path"]] and [item["type"]].  The
    entries are those of the GitHub API, which carry both keys; a listing
    with an entry that lacks one, on which the orchestrator raises
    [KeyError], is outside this model. *)
Record tree_entry := { path : string; type : string }.

(** What [response.json()] holds for the code: whether the key
    ["default_branch"] is there and its value, whether the key ["tree"] is
    there and its value, and the truth value of [data.get("truncated")]. *)
Record json_body := {
  default_branch : option string;
  tree : option (list tree_entry);
  truncated : bool;
}.

Record response := {
  status_code : Z;
  text : string;
  json : json_body;
}.

(** The remote services, as the answer to a GET of each URL.  Every
    request is answered: a request on which the HTTP client itself raises
    (a timeout, a refused connection) is outside this model. *)
Definition remote := string -> response.

(** [get_repo_info(owner, repo)] *)
Definition get_repo_info (http_get : remote) (owner repo : string)
  : result json_body :=
  let url := "https://api.github.com/repos/" +:+ owner +:+ "/" +:+ repo in
  let response := http_get url in
  if decide (status_code response ≠ 200) then
    raise (GitHubClientError ("Failed to fetch repo info: " +:+ text response))
  else inr (json response).

(** What [get_repo_tree] does with the response it received. *)
Definition read_tree_response (response : response)
  : result (list tree_entry) :=
  if decide (status_code response ≠ 200) then
    raise (GitHubClientError ("Failed to fetch repo tree: " +:+ text response))
  else
    let data := json response in
    match tree data with
    | None =>
        if truncated data then
          raise (GitHubClientError "Repository tree is too large (truncated).")
        else raise (GitHubClientError "Invalid tree response from GitHub.")
    | Some entries => inr entries
    end.

(** [get_repo_tree(owner, repo, branch)] *)
Definition get_repo_tree (http_get : remote) (owner repo branch : string)
  : result (list tree_entry) :=
  let url := "https://api.github.com/repos/" +:+ owner +:+ "/" +:+ repo
             +:+ "/git/trees/" +:+ branch +:+ "?recursive=1" in
  read_tree_response (http_get url).

(** What [get_raw_file_content] does with the response it received. *)
Definition read_raw_response (response : response) : string :=
  if decide (status_code response ≠ 200) then "" else text response.

(** The URL that [get_raw_file_content] reads. *)
Definition raw_url (owner repo branch file_path : string) : string :=
  "https://raw.githubusercontent.com/" +:+ owner +:+ "/" +:+ repo
  +:+ "/" +:+ branch +:+ "/" +:+ file_path.

(** [get_raw_file_content(owner, repo, branch, file_path)] *)
Definition get_raw_file_content (http_get : remote)
    (owner repo branch file_path : string) : string :=
  let url := raw_url owner repo branch file_path in
  read_raw_response (http_get url).

(** ** [services/llm.py]: the size bound of [generate_summary] *)

Definition max_chars : Z := 300000.

Definition truncation_marker : string :=
  String "010" "...[CONTENT TRUNCATED]...".

(** The value of [file_contents] that [generate_summary] puts in the
    prompt. *)
Definition bounded_contents (file_contents : string) : string :=
  if PyStr.len file_contents >? max_chars then
    PyStr.slice_to max_chars file_contents +:+ truncation_marker
  else file_contents.

(** ** [services/orchestrator.py] *)

(** The block of one fetched file. *)
Definition file_block (path content : string) : string :=
  String "010" (String "010" "--- FILE: ") +:+ path +:+ " ---"
  +:+ String "010" content +:+ String "010" "".

(** The loop over [zip(priority_paths, contents)]. *)
Definition assemble_context (fetched : list (string * string)) : string :=
  fold_left
    (fun context_string '(path, content) =>
       if PyStr.truthy (PyStr.strip content)
       then context_string +:+ file_block path content
       else context_string)
    fetched "".

(** Steps 1 to 4 of [process_github_repo], up to the choice of the files to
    fetch.  [clean_paths] is one list object, sorted in place by
    [build_tree_string] and then handed to [prioritize_files]. *)
Definition select_stage (http_get : remote) (url_str : string)
  : result (string * string * string * string * list string) :=
  '(owner, repo) ← parse_github_url url_str;
  default_branch ←
    try_except
      (repo_info ← get_repo_info http_get owner repo;
       mret (default "main" (default_branch repo_info)))
      (fun e => GitHubClientError
         ("Could not access repository: " +:+ owner +:+ "/" +:+ repo
          +:+ ". It may be private or invalid. Details: " +:+ exn_str e));
  tree_data ←
    try_except
      (get_repo_tree http_get owner repo default_branch)
      (fun e => GitHubClientError
         ("Failed to fetch repo tree: " +:+ exn_str e));
  let all_paths :=
    path <$> List.filter (fun item => bool_decide (type item = "blob"))
                         tree_data in
  let clean_paths := filter_paths all_paths in
  let '(file_tree_str, clean_paths) := build_tree_string clean_paths in
  let '(priority_paths, clean_paths) := prioritize_files clean_paths 10 in
  mret (owner, repo, default_branch, file_tree_str, priority_paths).

(** Step 4's fetches: [asyncio.gather] returns the results in the order of
    the tasks it was given. *)
Definition fetch_contents (http_get : remote)
    (owner repo default_branch : string) (priority_paths : list string)
  : list string :=
  get_raw_file_content http_get owner repo default_branch <$> priority_paths.

(** [process_github_repo(url_str)] up to the call of the summarizer: the
    arguments [generate_summary] is called with. *)
Definition process_github_repo (http_get : remote) (url_str : string)
  : result (string * string * string) :=
  '(owner, repo, default_branch, file_tree_str, priority_paths) ←
    select_stage http_get url_str;
  let contents :=
    fetch_contents http_get owner repo default_branch priority_paths in
  let context_string := assemble_context (zip priority_paths contents) in
  mret (repo, file_tree_str, context_string).

(** The fetches that the remote answers with status 200, each path with
    the text it was answered with, in the order of [priority_paths]. *)
Definition fetched_ok (http_get : remote) (owner repo default_branch : string)
    (priority_paths : list string) : list (string * string) :=
  (fun p => (p, text (http_get (raw_url owner repo default_branch p))))
  <$> List.filter
        (fun p => bool_decide
           (status_code (http_get (raw_url owner repo default_branch p))
            = 200))
        priority_paths.

(** A remote for a repository [o/r] whose default branch is [dev]: the raw
    service answers for [src/main.py] and has nothing else. *)
Definition demo_remote : remote := fun url =>
  let no_body :=
    {| default_branch := None; tree := None; truncated := false |} in
  if decide (url = "https://api.github.com/repos/o/r") then
    {| status_code := 200; text := "";
       json := {| default_branch := Some "dev"; tree := None;
                  truncated := false |} |}
  else if decide
       (url = "https://api.github.com/repos/o/r/git/trees/dev?recursive=1")
  then
    {| status_code := 200; text := "";
       json := {| default_branch := None;
                  tree := Some [ {| path := "src"; type := "tree" |};
                                 {| path := "src/main.py"; type := "blob" |};
                                 {| path := "logo.png"; type := "blob" |};
                                 {| path := "README.md"; type := "blob" |} ];
                  truncated := false |} |}
  else if decide (url = raw_url "o" "r" "dev" "src/main.py") then
    {| status_code := 200; text := "print(1)"; json := no_body |}
  else {| status_code := 404; text := "404: Not Found"; json := no_body |}.

(** What the three loops select from an ordered list of distinct paths when
    nothing stops them: the key files, then the core files that are not key
    files, then the source files that are neither. *)
Definition tiers (paths : list string) : list string :=
  List.filter is_key_file paths
  ++ List.filter (fun p => is_core_file p && negb (is_key_file p)) paths
  ++ List.filter
       (fun p => is_source_file p && negb (is_key_file p)
                 && negb (is_core_file p))
       paths.

(** [c in s] for a single code point [c]. *)
Fixpoint has_char (c : ascii) (s : string) : bool :=
  match s with
  | EmptyString => false
  | String a s' => bool_decide (a = c) || has_char c s'
  end.

(** The URLs that [get_repo_info] and [get_repo_tree] read. *)
Definition info_url (owner repo : string) : string :=
  "https://api.github.com/repos/" +:+ owner +:+ "/" +:+ repo.

Definition tree_url (owner repo branch : string) : string :=
  "https://api.github.com/repos/" +:+ owner +:+ "/" +:+ repo
  +:+ "/git/trees/" +:+ branch +:+ "?recursive=1".

(** [[item["path"] for item in tree_data if item["type"] == "blob"]] *)
Definition blob_paths (tree_data : list tree_entry) : list string :=
  path <$> List.filter (fun item => bool_decide (type item = "blob")) tree_data.

(** A fetched text that adds no block to the context. *)
Definition blank (content : string) : bool :=
  negb (PyStr.truthy (PyStr.strip content)).

(** A remote for a repository [big/repo] whose metadata names no default
    branch and whose tree on [main] is cut off without a listing. *)
Definition demo_truncated_remote : remote := fun url =>
  if decide (url = info_url "big" "repo") then
    {| status_code := 200; text := "{}";
       json := {| default_branch := None; tree := None;
                  truncated := false |} |}
  else if decide (url = tree_url "big" "repo" "main") then
    {| status_code := 200; text := "";
       json := {| default_branch := None; tree := None;
                  truncated := true |} |}
  else {| status_code := 404; text := "404: Not Found";
          json := {| default_branch := None; tree := None;
                     truncated := false |} |}.

(** *** The ignore rules, component by component

    A component of a path: not empty, and without separator or line feed. *)
Definition component (seg : string) : Prop :=
  seg <> ""
  /\ has_char PyStr.slash seg = false
  /\ has_char PathSpec.line_feed seg = false.

(** A path of a Git tree is a list of components joined by separators, the
    first of which is not [.]. *)
Definition relative_path (segs : list string) : Prop :=
  segs <> [] /\ Forall component segs /\ head segs <> Some ".".

(** What may follow a component: nothing, or a separator and further
    components. *)
Definition follows (T : string) : Prop :=
  T = "" \/ exists r, T = String PyStr.slash r /\ has_char PathSpec.line_feed r = false.

(** A pattern against one component; [below] tells whether the path goes on
    below the component, which makes it a directory. *)
Definition component_match (p : PathSpec.pattern) (seg : string)
    (below : bool) : bool :=
  match p with
  | PathSpec.Name name => bool_decide (seg = name)
  | PathSpec.Suffix suffix => PyStr.endswith seg suffix
  | PathSpec.Dir name => below && bool_decide (seg = name)
  end.

(** A pattern against the components of a path. *)
Fixpoint pattern_hits (p : PathSpec.pattern) (segs : list string) : bool :=
  match segs with
  | [] => false
  | seg :: rest =>
      component_match p seg (negb (bool_decide (rest = [])))
      || pattern_hits p rest
  end.

(** The path with the given components. *)
Definition join_path (segs : list string) : string :=
  PyStr.join (String PyStr.slash "") segs.

(** The name of a pattern holds no separator. *)
Definition pattern_ok (p : PathSpec.pattern) : bool :=
  match p with
  | PathSpec.Name name | PathSpec.Dir name =>
      negb (has_char PyStr.slash name)
  | PathSpec.Suffix _ => true
  end.

(** ** [services/llm.py] and [api/routes.py] *)

(** What reaches the caller of [generate_summary] and of the whole
    pipeline: an exception of the pipeline, or the [RuntimeError] of the
    summarizer. *)
Inductive failure :=
  | Exn (e : exn)
  | RuntimeError (msg : string).

(** The object [json.loads] gives for the model's answer, as the route
    reads it: the values of the keys [summary], [technologies] and
    [structure], where present.  The answer is taken to be a JSON object
    whose values have the types of [SummarizeResponse]; what the validation
    of the response model does with other values is not modelled. *)
Record summary_data := {
  summary : option string;
  technologies : option (list string);
  structure : option string;
}.

(** The summarization service.  [client] tells whether [AsyncOpenAI()]
    returns; [create] is the chat completion for a system and a user
    prompt, up to [response.choices[0].message.content]: the [str] of the
    exception raised on the way, or the content, which may be [None];
    [loads] is [json.loads]: the [str] of the exception raised, or the
    object. *)
Record llm := {
  client : bool;
  create : string -> string -> string + option string;
  loads : string -> string + summary_data;
}.

Definition nl : string := String "010" "".
Definition dq : string := String "034" "".

(** The two prompts of [generate_summary]. *)
Definition system_prompt (repo_name : string) : string :=
  "You are an expert software engineer analyzing the " +:+ repo_name
  +:+ " repository." +:+ nl
  +:+ "I will provide you with the directory tree structure of the project, and the raw text contents of its most important files."
  +:+ nl +:+ nl
  +:+ "Your task is to analyze this context and return a JSON object with exactly the following structure:"
  +:+ nl +:+ "{" +:+ nl
  +:+ "  " +:+ dq +:+ "summary" +:+ dq +:+ ": " +:+ dq
  +:+ "A human-readable description of what the project does" +:+ dq
  +:+ "," +:+ nl
  +:+ "  " +:+ dq +:+ "technologies" +:+ dq +:+ ": ["
  +:+ dq +:+ "List" +:+ dq +:+ ", " +:+ dq +:+ "of" +:+ dq +:+ ", "
  +:+ dq +:+ "main" +:+ dq +:+ ", " +:+ dq +:+ "technologies" +:+ dq +:+ ", "
  +:+ dq +:+ "languages" +:+ dq +:+ ", " +:+ dq +:+ "and" +:+ dq +:+ ", "
  +:+ dq +:+ "frameworks" +:+ dq +:+ "]," +:+ nl
  +:+ "  " +:+ dq +:+ "structure" +:+ dq +:+ ": " +:+ dq
  +:+ "Brief description of the project structure" +:+ dq +:+ nl
  +:+ "}" +:+ nl +:+ nl
  +:+ "Respond ONLY with valid JSON.".

Definition user_prompt (file_tree file_contents : string) : string :=
  "Directory Tree:" +:+ nl +:+ file_tree +:+ nl +:+ nl
  +:+ "Key File Contents:" +:+ nl +:+ file_contents +:+ nl.

(** The [try] block of [generate_summary]: the [str] of the exception it
    raises, or the object it returns. *)
Definition request_summary (service : llm) (system user : string)
  : string + summary_data :=
  match create service system user with
  | inl msg => inl msg
  | inr content =>
      match content with
      | None | Some EmptyString => inl "Empty response from LLM"
      | Some content => loads service content
      end
  end.

(** [generate_summary(repo_name, file_tree, file_contents)] *)
Definition generate_summary (service : llm)
    (repo_name file_tree file_contents : string) : failure + summary_data :=
  if negb (client service) then
    inl (Exn (ValueError "OpenAI API key missing or invalid."))
  else
    let file_contents := bounded_contents file_contents in
    match request_summary service (system_prompt repo_name)
            (user_prompt file_tree file_contents) with
    | inl msg => inl (RuntimeError ("Failed to generate summary: " +:+ msg))
    | inr data => inr data
    end.

(** [process_github_repo(url_str)], with the call of the summarizer. *)
Definition summarize (http_get : remote) (service : llm) (url_str : string)
  : failure + summary_data :=
  match process_github_repo http_get url_str with
  | inl e => inl (Exn e)
  | inr (repo, file_tree_str, context_string) =>
      generate_summary service repo file_tree_str context_string
  end.

(** The answer of the endpoint: the [SummarizeResponse], or the [detail] of
    the [HTTPException]. *)
Inductive reply_body :=
  | Summary (summary : string) (technologies : list string)
            (structure : string)
  | ErrorDetail (status message : string).

Record reply := { status : Z; body : reply_body }.

(** [summarize_repo(request)], for [str(request.github_url)].  The answer
    of the summarizer is well typed (see [summary_data]), so the response
    model is built without a validation error. *)
Definition summarize_repo (http_get : remote) (service : llm)
    (github_url : string) : reply :=
  match summarize http_get service github_url with
  | inr summary_data =>
      {| status := 200;
         body := Summary
                   (default "No summary provided." (summary summary_data))
                   (default [] (technologies summary_data))
                   (default "No structure provided."
                            (structure summary_data)) |}
  | inl (Exn (ValueError msg)) =>
      {| status := 400; body := ErrorDetail "error" msg |}
  | inl (Exn (GitHubClientError msg)) =>
      {| status := 400; body := ErrorDetail "error" msg |}
  | inl _ =>
      {| status := 500;
         body := ErrorDetail "error" "An internal server error occurred." |}
  end.

(** A service whose model answers every prompt with the same text. *)
Definition demo_llm (answer : option string) : llm :=
  {| client := true;
     create := fun _ _ => inr answer;
     loads := fun content =>
       if decide (content = "{}") then
         inr {| summary := None; technologies := None; structure := None |}
       else inl "Expecting value: line 1 column 1 (char 0)" |}.

(** What the three loops select when the third one is never stopped. *)
Definition unbounded_selection (paths : list string) : list string :=
  let paths := PyList.sort paths in
  select_loop is_source_file paths
    (select_loop is_core_file paths (select_loop is_key_file paths [])).

Example prioritized_scenario :
  prioritized ["src/main.py"; "README.md"] 10 = ["README.md"; "src/main.py"].
Proof. vm_compute. reflexivity. Qed.

Example split_examples :
  PyStr.split PyStr.slash "a/b" = ["a"; "b"]
  /\ PyStr.split PyStr.slash "" = [""]
  /\ PyStr.split PyStr.slash "a/" = ["a"; ""]
  /\ PyStr.rstrip PyStr.slash "a/b//" = "a/b"
  /\ PyStr.lower "ReadMe.MD" = "readme.md"
  /\ PyStr.endswith "x.py" ".py" = true
  /\ PyStr.strip "  a b  " = "a b".
Proof. vm_compute. repeat split. Qed.

Example filter_examples :
  filter_paths ["README.md"; "node_modules/x.js"; "package-lock.json";
                "src/main.py"; "logo.png"; "a/b/node_modules/c/d.py";
                "node_modules"; "x.png/y.txt"; "src/.env"; "src/.envrc";
                "pkg/__init__.py"; "my__init__.py"; "venv/x"; "myvenv/x";
                "a.pngx"; ".png"]
  = ["README.md"; "src/main.py"; "node_modules"; "src/.envrc";
     "my__init__.py"; "myvenv/x"; "a.pngx"].
Proof. vm_compute. reflexivity. Qed.

(** * Properties *)

(** ** [list.sort] on paths *)

Lemma sort_Permutation l : PyList.sort l ≡ₚ l.
Proof. apply merge_sort_Permutation. Qed.

Lemma sort_Sorted l : Sorted String.le (PyList.sort l).
Proof. apply Sorted_merge_sort, _. Qed.

(** The order of code point sequences is total and antisymmetric, so a list
    has one sorted arrangement. *)
Lemma sort_proper l1 l2 : l1 ≡ₚ l2 -> PyList.sort l1 = PyList.sort l2.
Proof.
  intros Hp. apply (Sorted_unique String.le); try apply sort_Sorted.
  by rewrite !sort_Permutation.
Qed.

Lemma sort_fixed l : Sorted String.le l -> PyList.sort l = l.
Proof.
  intros Hs. apply (Sorted_unique String.le); auto using sort_Sorted.
  apply sort_Permutation.
Qed.

Lemma elem_of_sort x l : x ∈ PyList.sort l <-> x ∈ l.
Proof. by rewrite sort_Permutation. Qed.

Lemma slice_to_take {A} (n : Z) (l : list A) :
  exists m, PyList.slice_to n l = take m l.
Proof. unfold PyList.slice_to. destruct (0 <=? n); eauto. Qed.

Lemma slice_to_length {A} (n : Z) (l : list A) :
  0 <= n -> Z.of_nat (length (PyList.slice_to n l)) <= n.
Proof.
  intros Hn. unfold PyList.slice_to.
  destruct (Z.leb_spec 0 n); [|lia]. rewrite length_take. lia.
Qed.

(** ** The selection loops *)

Section loops.

Implicit Types (acc paths : list string) (p : string).

Lemma append_new_eq acc p :
  append_new acc p = acc ++ (if decide (p ∈ acc) then [] else [p]).
Proof. unfold append_new. destruct (decide _); by rewrite ?app_nil_r. Qed.

Lemma append_new_elem_of acc p q :
  q ∈ append_new acc p <-> q ∈ acc \/ q = p.
Proof.
  unfold append_new. destruct (decide (p ∈ acc)) as [Hin|Hin].
  - split; [by left | by intros [?| ->]].
  - rewrite elem_of_app, list_elem_of_singleton. tauto.
Qed.

Lemma append_new_NoDup acc p : NoDup acc -> NoDup (append_new acc p).
Proof.
  intros Hnd. unfold append_new. destruct (decide (p ∈ acc)); [done|].
  apply NoDup_app. split_and!; [done | | apply NoDup_singleton].
  intros x Hx ->%list_elem_of_singleton. done.
Qed.

(** Whatever a step of a loop keeps, the loop keeps. *)
Lemma select_loop_inv (I : list string -> Prop) cond paths acc :
  I acc ->
  (forall a p, p ∈ paths -> cond p = true -> I a -> I (append_new a p)) ->
  I (select_loop cond paths acc).
Proof.
  unfold select_loop. revert acc.
  induction paths as [|q paths IH]; simpl; intros acc Hacc Hstep; [done|].
  apply IH.
  - destruct (cond q) eqn:Hq; [|done]. apply Hstep; [left | |]; done.
  - intros a p Hp. apply Hstep. by right.
Qed.

Lemma fill_loop_inv (I : list string -> Prop) max_files paths acc :
  I acc ->
  (forall a p, p ∈ paths -> is_source_file p = true -> I a ->
               I (append_new a p)) ->
  I (fill_loop max_files paths acc).
Proof.
  revert acc.
  induction paths as [|q paths IH]; simpl; intros acc Hacc Hstep; [done|].
  destruct (_ >=? _); [done|]. apply IH.
  - destruct (is_source_file q) eqn:Hq; [|done].
    apply Hstep; [left | |]; done.
  - intros a p Hp. apply Hstep. by right.
Qed.

(** The first two loops run to the end: no path that passes the condition
    is left out. *)
Lemma select_loop_complete cond paths acc p :
  p ∈ paths -> cond p = true -> p ∈ select_loop cond paths acc.
Proof.
  unfold select_loop. revert acc.
  induction paths as [|q paths IH]; simpl; intros acc Hp Hc.
  - by apply elem_of_nil in Hp.
  - apply elem_of_cons in Hp as [->|Hp]; [|by apply IH].
    rewrite Hc.
    apply (select_loop_inv (fun a => q ∈ a) cond paths).
    + apply append_new_elem_of. by right.
    + intros a p _ _ Ha. apply append_new_elem_of. by left.
Qed.

Lemma prioritized_take paths max_files :
  exists m, prioritized paths max_files = take m (selection paths max_files).
Proof. apply slice_to_take. Qed.

Lemma selection_inv (I : list string -> Prop) paths max_files :
  I [] ->
  (forall a p, p ∈ paths ->
     is_key_file p || is_core_file p || is_source_file p = true ->
     I a -> I (append_new a p)) ->
  I (selection paths max_files).
Proof.
  intros Hnil Hstep. unfold selection.
  apply fill_loop_inv; [apply select_loop_inv; [apply select_loop_inv|]|];
    try done.
  all: intros a p Hp Hc; rewrite elem_of_sort in Hp; apply Hstep; [done|].
  all: rewrite Hc; by rewrite ?orb_true_r.
Qed.

Lemma selection_NoDup paths max_files : NoDup (selection paths max_files).
Proof.
  apply selection_inv; [constructor|]. intros. by apply append_new_NoDup.
Qed.

Lemma selection_Forall (P : string -> Prop) paths max_files :
  (forall p, p ∈ paths ->
     is_key_file p || is_core_file p || is_source_file p = true -> P p) ->
  Forall P (selection paths max_files).
Proof.
  intros HP. apply selection_inv; [constructor|].
  intros a p Hp Hc Ha. apply Forall_forall. intros q.
  rewrite append_new_elem_of. intros [Hq| ->]; [|by apply HP].
  by eapply Forall_forall in Ha.
Qed.

Lemma prioritized_elem_of paths max_files p :
  p ∈ prioritized paths max_files -> p ∈ selection paths max_files.
Proof.
  destruct (prioritized_take paths max_files) as [m ->].
  apply subseteq_take.
Qed.

End loops.

(** ** The File Prioritizer *)

(** C3. The value returned by [prioritize_files] does not depend on the
    order of the input: two lists that are permutations of each other, with
    the same [max_files], give the same ordered output (and leave the
    caller's list with the same contents). *)
Theorem prioritize_files_order_independent paths1 paths2 max_files :
  paths1 ≡ₚ paths2 ->
  prioritized paths1 max_files = prioritized paths2 max_files
  /\ prioritize_files paths1 max_files = prioritize_files paths2 max_files.
Proof.
  intros Hp. unfold prioritized, prioritize_files.
  by rewrite (sort_proper _ _ Hp).
Qed.

Lemma prioritize_files_order_independent_witness :
  prioritized ["src/main.py"; "b.py"; "README.md"] 2
  = prioritized ["README.md"; "src/main.py"; "b.py"] 2.
Proof.
  apply (prioritize_files_order_independent
           ["src/main.py"; "b.py"; "README.md"]
           ["README.md"; "src/main.py"; "b.py"] 2).
  symmetry. apply (Permutation_cons_append ["src/main.py"; "b.py"]).
Defined.

Lemma prioritized_NoDup paths max_files :
  NoDup (prioritized paths max_files).
Proof.
  destruct (prioritized_take paths max_files) as [m ->].
  eapply sublist_NoDup; [apply selection_NoDup | apply sublist_take].
Qed.

(** C4. For a bound [max_files] that is not negative, the output of
    [prioritize_files] has at most [max_files] entries and no path occurs
    in it twice. *)
Theorem prioritize_files_bounded_NoDup paths max_files :
  0 <= max_files ->
  Z.of_nat (length (prioritized paths max_files)) <= max_files
  /\ NoDup (prioritized paths max_files).
Proof.
  intros Hn. split; [|apply prioritized_NoDup].
  unfold prioritized, prioritize_files. simpl. by apply slice_to_length.
Qed.

Lemma prioritize_files_bounded_NoDup_witness :
  Z.of_nat (length (prioritized ["a.py"; "b.py"; "README.md"; "a.py"] 2)) <= 2
  /\ NoDup (prioritized ["a.py"; "b.py"; "README.md"; "a.py"] 2).
Proof.
  apply (prioritize_files_bounded_NoDup
           ["a.py"; "b.py"; "README.md"; "a.py"] 2).
  lia.
Defined.

(** A negative [max_files] is read by the slice as a count from the end: the
    third loop adds nothing and the last entries of the first two tiers are
    cut off. *)
Example prioritized_negative_bound :
  prioritized ["b/README.md"; "a/readme.txt"; "c.py"] (-1) = ["a/readme.txt"].
Proof. vm_compute. reflexivity. Qed.

(** What is selected comes from the input and passed the condition of a
    loop. *)
Lemma prioritized_sound paths max_files p :
  p ∈ prioritized paths max_files ->
  p ∈ paths
  /\ is_key_file p || is_core_file p || is_source_file p = true.
Proof.
  intros Hp%prioritized_elem_of. revert p Hp.
  apply Forall_forall, selection_Forall. done.
Qed.

(** C10. Every path in the output of [prioritize_files] is a path of the
    input that passes the condition of one of the three loops: it is a key
    file, or a core file within depth 3, or it ends with a source extension.
    A path that passes none of them, such as [notes.txt] or
    [docs/guide.rst], is in no output, whatever the input and the bound. *)
Theorem prioritize_files_only_tier_matches paths max_files p :
  p ∈ prioritized paths max_files ->
  p ∈ paths
  /\ (is_key_file p = true \/ is_core_file p = true
      \/ is_source_file p = true)
  /\ p <> "notes.txt" /\ p <> "docs/guide.rst".
Proof.
  intros [Hin Hc]%prioritized_sound. split_and!; [done | | |].
  - destruct (is_key_file p), (is_core_file p), (is_source_file p);
      auto; discriminate.
  - intros ->. vm_compute in Hc. discriminate.
  - intros ->. vm_compute in Hc. discriminate.
Qed.

Lemma prioritize_files_only_tier_matches_witness :
  "src/util.py" ∈ ["notes.txt"; "src/util.py"; "docs/guide.rst"]
  /\ (is_key_file "src/util.py" = true \/ is_core_file "src/util.py" = true
      \/ is_source_file "src/util.py" = true)
  /\ "src/util.py" <> "notes.txt" /\ "src/util.py" <> "docs/guide.rst".
Proof.
  apply (prioritize_files_only_tier_matches
           ["notes.txt"; "src/util.py"; "docs/guide.rst"] 10 "src/util.py").
  vm_compute. left.
Defined.

Example prioritized_skips_unmatched :
  prioritized ["notes.txt"; "src/util.py"; "docs/guide.rst"] 10
  = ["src/util.py"].
Proof. vm_compute. reflexivity. Qed.

(** The first loop's picks stay at the front of the selection. *)
Lemma selection_key_prefix paths max_files :
  select_loop is_key_file (PyList.sort paths) []
    `prefix_of` selection paths max_files.
Proof.
  unfold selection. simpl.
  set (A1 := select_loop is_key_file (PyList.sort paths) []).
  assert (Hstep : forall a p, A1 `prefix_of` a -> A1 `prefix_of` append_new a p).
  { intros a p Ha. rewrite append_new_eq. by apply prefix_app_r. }
  apply (fill_loop_inv (prefix A1));
    [apply (select_loop_inv (prefix A1))|]; [reflexivity|..];
    intros a p _ _; apply Hstep.
Qed.

Lemma key_files_first paths max_files x y :
  x ∈ prioritized paths max_files ->
  y ∈ prioritized paths max_files ->
  is_key_file x = true ->
  is_key_file y = false ->
  precedes x y (prioritized paths max_files).
Proof.
  intros Hx Hy Kx Ky.
  set (A1 := select_loop is_key_file (PyList.sort paths) []).
  assert (HA1 : Forall (fun p => is_key_file p = true) A1).
  { apply select_loop_inv; [constructor|]. intros a p _ Hp Ha.
    apply Forall_forall. intros q [Hq| ->]%append_new_elem_of; [|done].
    by eapply Forall_forall in Ha. }
  assert (HxA : x ∈ A1).
  { apply select_loop_complete; [|done]. apply elem_of_sort.
    by apply prioritized_sound in Hx as [? _]. }
  assert (HyA : y ∉ A1).
  { intros Hin. eapply Forall_forall in HA1; [|exact Hin]. congruence. }
  destruct (selection_key_prefix paths max_files) as [K HK]. fold A1 in HK.
  destruct (prioritized_take paths max_files) as [m Hm].
  rewrite Hm, HK in Hy |- *. rewrite take_app in Hy |- *.
  apply elem_of_app in Hy as [Hy|Hy].
  { by apply subseteq_take in Hy. }
  destruct (decide (m <= length A1)%nat) as [Hle|Hgt].
  { replace (m - length A1)%nat with 0%nat in Hy by lia.
    by apply elem_of_nil in Hy. }
  rewrite (take_ge A1) by lia.
  apply list_elem_of_split in HxA as (l1 & l2 & ->).
  apply list_elem_of_split in Hy as (k1 & k2 & ->).
  exists l1, (l2 ++ k1), k2. by rewrite <- !app_assoc.
Qed.

(** C5. Every key file (a pick of the first loop) in the output comes before
    every source file in the output that the first loop did not pick; this
    holds for every bound, so in particular when the bound admits both.  On
    the paths of the scenario the filter drops [node_modules/x.js],
    [package-lock.json] and [logo.png], and the output for a bound of 10 is
    [README.md] followed by [src/main.py]. *)
Theorem prioritize_files_key_before_source paths max_files x y :
  x ∈ prioritized paths max_files ->
  y ∈ prioritized paths max_files ->
  is_key_file x = true ->
  is_source_file y = true ->
  is_key_file y = false ->
  precedes x y (prioritized paths max_files)
  /\ filter_paths ["README.md"; "node_modules/x.js"; "package-lock.json";
                   "src/main.py"; "logo.png"]
     = ["README.md"; "src/main.py"]
  /\ prioritized (filter_paths ["README.md"; "node_modules/x.js";
                                "package-lock.json"; "src/main.py";
                                "logo.png"]) 10
     = ["README.md"; "src/main.py"].
Proof.
  intros Hx Hy Kx _ Ky. split; [by apply key_files_first|].
  split; vm_compute; reflexivity.
Qed.

Lemma prioritize_files_key_before_source_witness :
  precedes "docs/README.md" "a/util.py"
    (prioritized ["a/util.py"; "docs/README.md"; "z.txt"] 10).
Proof.
  apply (prioritize_files_key_before_source
           ["a/util.py"; "docs/README.md"; "z.txt"] 10
           "docs/README.md" "a/util.py").
  - vm_compute. left.
  - vm_compute. right. left.
  - reflexivity.
  - reflexivity.
  - reflexivity.
Defined.

(** ** The Path Filter *)

Lemma filter_bool_idemp {A} (f : A -> bool) (l : list A) :
  List.filter f (List.filter f l) = List.filter f l.
Proof.
  induction l as [|x l IH]; simpl; [done|].
  destruct (f x) eqn:Hx; simpl; [|done]. by rewrite Hx, IH.
Qed.

Lemma filter_bool_sublist {A} (f : A -> bool) (l : list A) :
  List.filter f l `sublist_of` l.
Proof.
  induction l as [|x l IH]; simpl; [done|].
  destruct (f x); by constructor.
Qed.

Lemma filter_bool_elem_of {A} (f : A -> bool) (l : list A) x :
  x ∈ List.filter f l <-> x ∈ l /\ f x = true.
Proof. rewrite !list_elem_of_In. apply filter_In. Qed.

(** C8. [filter_paths] is idempotent, and its output is the input with the
    matching paths struck out: the retained paths, each as often as it
    occurs, in the order of the input. *)
Theorem filter_paths_idempotent paths :
  filter_paths (filter_paths paths) = filter_paths paths
  /\ filter_paths paths `sublist_of` paths
  /\ (forall p, p ∈ filter_paths paths <->
        p ∈ paths
        /\ PathSpec.match_file (PathSpec.from_lines IGNORE_PATTERNS) p
           = false).
Proof.
  unfold filter_paths. simpl.
  generalize (PathSpec.match_file (PathSpec.from_lines IGNORE_PATTERNS)).
  intros f. split_and!.
  - apply filter_bool_idemp.
  - apply filter_bool_sublist.
  - intros p. rewrite filter_bool_elem_of, negb_true_iff. done.
Qed.

(** ** The caller's list *)

(** C9, as the claim states it, fails: after the call, the caller's list
    [["b.py"; "a.py"]] holds [["a.py"; "b.py"]]. *)
Lemma prioritize_files_reorders_input :
  let st : gmap loc (list string) := {[ 1%positive := ["b.py"; "a.py"] ]} in
  exists r st',
    call_on (fun paths => prioritize_files paths 10) 1%positive st
    = Some (r, st')
    /\ st' !! 1%positive = Some ["a.py"; "b.py"]
    /\ st' !! 1%positive <> st !! 1%positive.
Proof.
  eexists _, _. split_and!.
  - unfold call_on. rewrite lookup_singleton_eq. reflexivity.
  - rewrite lookup_insert_eq. vm_compute. reflexivity.
  - rewrite lookup_insert_eq, lookup_singleton_eq. vm_compute. discriminate.
Qed.

(** C9, amended.  The value returned is a function of the contents of the
    list and of the bound.  The call writes one object, the list it was
    handed, and leaves there the same paths sorted by code points; every
    other object is untouched, and the list itself is unchanged when it was
    sorted already. *)
Theorem prioritize_files_effect (st : gmap loc (list string)) (l : loc)
    paths max_files :
  st !! l = Some paths ->
  call_on (fun paths => prioritize_files paths max_files) l st
  = Some (prioritized paths max_files, <[l := PyList.sort paths]> st)
  /\ PyList.sort paths ≡ₚ paths
  /\ Sorted String.le (PyList.sort paths)
  /\ (forall l', l' <> l ->
        <[l := PyList.sort paths]> st !! l' = st !! l')
  /\ (<[l := PyList.sort paths]> st = st <-> Sorted String.le paths).
Proof.
  intros Hl. split_and!.
  - unfold call_on. by rewrite Hl.
  - apply sort_Permutation.
  - apply sort_Sorted.
  - intros l' Hne. by rewrite lookup_insert_ne.
  - split.
    + intros Hst. apply (f_equal (fun m => m !! l)) in Hst.
      rewrite lookup_insert_eq, Hl in Hst. injection Hst as Hst.
      rewrite <- Hst. apply sort_Sorted.
    + intros Hs. rewrite sort_fixed by done. by apply insert_id.
Qed.

Lemma prioritize_files_effect_witness :
  call_on (fun paths => prioritize_files paths 10) 2%positive
    {[ 1%positive := ["x"]; 2%positive := ["b.py"; "a.py"] ]}
  = Some (prioritized ["b.py"; "a.py"] 10,
          <[2%positive := PyList.sort ["b.py"; "a.py"]]>
            {[ 1%positive := ["x"]; 2%positive := ["b.py"; "a.py"] ]}).
Proof.
  apply (prioritize_files_effect
           {[ 1%positive := ["x"]; 2%positive := ["b.py"; "a.py"] ]}
           2%positive ["b.py"; "a.py"] 10).
  reflexivity.
Defined.

(** [build_tree_string] sorts the same object before [prioritize_files]
    sees it. *)
Lemma build_tree_string_effect paths :
  build_tree_string paths
  = (PyStr.join (String "010" "") (PyList.sort paths), PyList.sort paths).
Proof. reflexivity. Qed.

(** ** The size bound of the summarizer's input *)

Lemma len_app s1 s2 : PyStr.len (s1 +:+ s2) = PyStr.len s1 + PyStr.len s2.
Proof.
  unfold PyStr.len. induction s1 as [|c s1 IH]; [done|].
  change (String c s1 +:+ s2) with (String c (s1 +:+ s2)).
  cbn [String.length]. lia.
Qed.

Lemma str_take_length n s :
  String.length (PyStr.take n s) = (n `min` String.length s)%nat.
Proof.
  revert s. induction n as [|n IH]; intros [|c s]; simpl; auto.
Qed.

Lemma str_take_prefix n s : exists rest, s = PyStr.take n s +:+ rest.
Proof.
  revert s. induction n as [|n IH]; intros [|c s]; simpl; eauto.
  destruct (IH s) as [rest Hrest]. exists rest.
  change (String c (PyStr.take n s) +:+ rest)
    with (String c (PyStr.take n s +:+ rest)).
  by rewrite <- Hrest.
Qed.

(** C6. A content blob longer than the ceiling of 300000 code points is cut
    to its first 300000 and the marker is appended, which makes its length
    the ceiling plus the length of the marker; a blob no longer than the
    ceiling is passed on as it is.  Either way the length is at most the
    ceiling plus the length of the marker. *)
Theorem bounded_contents_spec file_contents :
  (max_chars < PyStr.len file_contents ->
     bounded_contents file_contents
     = PyStr.slice_to max_chars file_contents +:+ truncation_marker
     /\ (exists rest,
           file_contents = PyStr.slice_to max_chars file_contents +:+ rest)
     /\ PyStr.len (PyStr.slice_to max_chars file_contents) = 300000
     /\ PyStr.len (bounded_contents file_contents)
        = 300000 + PyStr.len truncation_marker)
  /\ (PyStr.len file_contents <= max_chars ->
        bounded_contents file_contents = file_contents)
  /\ PyStr.len (bounded_contents file_contents)
     <= 300000 + PyStr.len truncation_marker.
Proof.
  assert (Hslice : forall s, max_chars < PyStr.len s ->
            PyStr.len (PyStr.slice_to max_chars s) = 300000).
  { intros s Hs. unfold PyStr.slice_to, PyStr.len, max_chars in *.
    change (0 <=? 300000) with true. cbv iota.
    rewrite str_take_length. lia. }
  unfold bounded_contents.
  destruct (Z.gtb_spec (PyStr.len file_contents) max_chars) as [Hgt|Hle].
  - split_and!.
    + intros _. split_and!; [done | apply str_take_prefix | by apply Hslice |].
      rewrite len_app, Hslice by done. done.
    + lia.
    + rewrite len_app, Hslice by done. lia.
  - split_and!; [lia | done |].
    unfold max_chars, PyStr.len in *. lia.
Qed.

Lemma bounded_contents_spec_witness :
  PyStr.len (bounded_contents (Pos.iter (String "a") "" 300001%positive))
  = 300000 + PyStr.len truncation_marker
  /\ bounded_contents "print(1)" = "print(1)".
Proof.
  split.
  - apply (bounded_contents_spec (Pos.iter (String "a") "" 300001%positive)).
    vm_compute. reflexivity.
  - apply (bounded_contents_spec "print(1)"). vm_compute. discriminate.
Defined.

Example truncation_marker_length : PyStr.len truncation_marker = 26.
Proof. reflexivity. Qed.

(** ** [services/github.py] *)

Lemma index_last_two {A} (l : list A) :
  (2 <= length l)%nat ->
  is_Some (PyList.index l (-1)) /\ is_Some (PyList.index l (-2)).
Proof.
  intros Hl. unfold PyList.index. simpl.
  destruct (Z.leb_spec 0 (Z.of_nat (length l) + -1)); [|lia].
  destruct (Z.leb_spec 0 (Z.of_nat (length l) + -2)); [|lia].
  split; apply lookup_lt_is_Some; lia.
Qed.

(** When [parse_github_url] raises, and what: the only test is that the
    stripped string has a separator somewhere and ["github.com"]
    somewhere. *)
Lemma parse_github_url_raises url :
  let stripped := PyStr.rstrip PyStr.slash url in
  (exists e, parse_github_url url = inl e) <->
  ((length (PyStr.split PyStr.slash stripped) < 2)%nat
   \/ PyStr.contains "github.com" stripped = false).
Proof.
  unfold parse_github_url. simpl.
  set (stripped := PyStr.rstrip PyStr.slash url).
  set (parts := PyStr.split PyStr.slash stripped).
  destruct (Z.geb_spec (Z.of_nat (length parts)) 2) as [Hge|Hlt]; simpl.
  - destruct (PyStr.contains "github.com" stripped) eqn:Hc.
    + destruct (index_last_two parts) as [[repo ->] [owner ->]]; [lia|].
      split; [intros [e He]; discriminate | intros [?|?]; [lia|done]].
    + split; eauto.
  - split; [intros _; left; lia | eauto].
Qed.

(** C1, at inputs that name no owner and no repository, or an owner only:
    the parser returns a pair instead of raising. *)
Theorem parse_github_url_accepts_short_paths :
  parse_github_url "https://github.com/" = inr ("", "github.com")
  /\ parse_github_url "https://github.com/owner" = inr ("github.com", "owner")
  /\ parse_github_url "https://github.com/tiangolo/fastapi"
     = inr ("tiangolo", "fastapi").
Proof. vm_compute. done. Qed.

(** [get_repo_tree] raises exactly when the status is not 200 or the key
    ["tree"] is missing; the truncated flag only chooses the message. *)
Lemma read_tree_response_raises (r : response) :
  (exists e, read_tree_response r = inl e) <->
  (status_code r <> 200 \/ tree (json r) = None).
Proof.
  unfold read_tree_response.
  destruct (decide (status_code r <> 200)) as [Hs|Hs].
  - split; eauto.
  - destruct (tree (json r)) as [entries|].
    + split; [intros [e He]; discriminate | intros [?|?]; done].
    + split; [eauto|]. intros _. destruct (truncated (json r)); eauto.
Qed.

(** C2, at a successful response that is marked truncated and carries a
    (partial) listing: [get_repo_tree] returns the listing. *)
Theorem get_repo_tree_returns_truncated_listing :
  let listing := [ {| path := "README.md"; type := "blob" |} ] in
  let response :=
    {| status_code := 200; text := "";
       json := {| default_branch := None; tree := Some listing;
                  truncated := true |} |} in
  get_repo_tree (fun _ => response) "owner" "repo" "main" = inr listing.
Proof. reflexivity. Qed.

(** * Further properties *)

(** ** The File Prioritizer as three tiers *)

Section tiers.

Implicit Types (acc paths : list string) (p : string).

Lemma select_loop_prefix cond paths acc :
  acc `prefix_of` select_loop cond paths acc.
Proof.
  apply (select_loop_inv (prefix acc)); [reflexivity|].
  intros a p _ _ Ha. rewrite append_new_eq. by apply prefix_app_r.
Qed.

(** On distinct paths a loop appends the paths that pass its condition and
    are not selected yet, in the order it meets them. *)
Lemma select_loop_filter cond paths acc :
  NoDup paths ->
  select_loop cond paths acc
  = acc ++ List.filter (fun p => cond p && negb (bool_decide (p ∈ acc))) paths.
Proof.
  unfold select_loop. revert acc.
  induction paths as [|q paths IH]; intros acc Hnd; simpl.
  { by rewrite app_nil_r. }
  apply NoDup_cons in Hnd as [Hq Hnd].
  assert (Hext : forall acc',
    (forall p, p ∈ paths -> (p ∈ acc' <-> p ∈ acc)) ->
    List.filter (fun p => cond p && negb (bool_decide (p ∈ acc'))) paths
    = List.filter (fun p => cond p && negb (bool_decide (p ∈ acc))) paths).
  { intros acc' Hacc. apply filter_ext_in. intros p Hp%list_elem_of_In.
    f_equal. f_equal. apply bool_decide_ext. by apply Hacc. }
  destruct (cond q) eqn:Hc; simpl; [|by apply IH].
  unfold append_new. destruct (decide (q ∈ acc)) as [Hin|Hin].
  - rewrite bool_decide_eq_true_2 by done. simpl. by apply IH.
  - rewrite bool_decide_eq_false_2 by done. simpl.
    rewrite IH by done. rewrite <- app_assoc. simpl. do 2 f_equal.
    apply Hext. intros p Hp. rewrite elem_of_app, list_elem_of_singleton.
    split; [intros [?| ->]; done | by left].
Qed.

(** Up to the bound, the [break] of the third loop changes nothing. *)
Lemma fill_loop_take max_files paths acc :
  0 <= max_files ->
  take (Z.to_nat max_files) (fill_loop max_files paths acc)
  = take (Z.to_nat max_files) (select_loop is_source_file paths acc).
Proof.
  intros Hn. revert acc.
  induction paths as [|q paths IH]; intros acc; simpl; [done|].
  destruct (Z.geb_spec (Z.of_nat (length acc)) max_files) as [Hge|Hlt].
  - destruct (select_loop_prefix is_source_file (q :: paths) acc) as [k Hk].
    unfold select_loop in Hk. simpl in Hk. unfold select_loop.
    rewrite Hk. rewrite take_app_le by lia. done.
  - apply IH.
Qed.

Lemma bool_decide_filter (f : string -> bool) paths p :
  p ∈ paths -> bool_decide (p ∈ List.filter f paths) = f p.
Proof.
  intros Hp. destruct (f p) eqn:Hf.
  - apply bool_decide_eq_true_2, filter_bool_elem_of. done.
  - apply bool_decide_eq_false_2. rewrite filter_bool_elem_of.
    intros [_ ?]. congruence.
Qed.

(** X1. For a list of distinct paths and a bound that is not negative, the
    output of [prioritize_files] is the first [max_files] entries of the
    three tiers of the sorted input: key files, then core files, then other
    source files, each tier in lexicographic order.  Its length is the
    smaller of the bound and the number of matching paths. *)
Theorem prioritize_files_tiers paths max_files :
  NoDup paths ->
  0 <= max_files ->
  prioritized paths max_files
  = take (Z.to_nat max_files) (tiers (PyList.sort paths))
  /\ Z.of_nat (length (prioritized paths max_files))
     = Z.min max_files (Z.of_nat (length (tiers (PyList.sort paths)))).
Proof.
  intros Hnd Hn.
  assert (Hs : NoDup (PyList.sort paths)) by by rewrite sort_Permutation.
  assert (Heq : prioritized paths max_files
                = take (Z.to_nat max_files) (tiers (PyList.sort paths))).
  { unfold prioritized, prioritize_files, PyList.slice_to. simpl.
    destruct (Z.leb_spec 0 max_files); [|lia].
    rewrite fill_loop_take by done.
    set (s := PyList.sort paths) in *.
    rewrite !select_loop_filter by done. cbn [app].
    assert (HK : List.filter
                   (fun p => is_key_file p && negb (bool_decide (p ∈ [])))
                   s
                 = List.filter is_key_file s).
    { apply filter_ext. intros p.
      rewrite bool_decide_eq_false_2 by apply not_elem_of_nil.
      apply andb_true_r. }
    rewrite HK.
    assert (HC : List.filter
                   (fun p => is_core_file p
                      && negb (bool_decide (p ∈ List.filter is_key_file s)))
                   s
                 = List.filter
                     (fun p => is_core_file p && negb (is_key_file p)) s).
    { apply filter_ext_in. intros p Hp%list_elem_of_In.
      by rewrite bool_decide_filter. }
    rewrite HC. unfold tiers. rewrite <- app_assoc. do 3 f_equal.
    apply filter_ext_in. intros p Hp%list_elem_of_In.
    rewrite (bool_decide_ext _ _ (elem_of_app _ _ p)), bool_decide_or.
    rewrite !bool_decide_filter by done.
    by destruct (is_key_file p), (is_core_file p), (is_source_file p). }
  split; [done|]. rewrite Heq, length_take. lia.
Qed.

End tiers.

Lemma prioritize_files_tiers_witness :
  prioritized ["src/b.py"; "main.py"; "docs/README.md"; "notes.txt"; "a.py"] 3
  = take 3 (tiers (PyList.sort ["src/b.py"; "main.py"; "docs/README.md";
                                "notes.txt"; "a.py"])).
Proof.
  apply (prioritize_files_tiers
           ["src/b.py"; "main.py"; "docs/README.md"; "notes.txt"; "a.py"] 3).
  - apply (bool_decide_unpack _). vm_compute. exact I.
  - lia.
Defined.

Example prioritize_files_tiers_example :
  prioritized ["src/b.py"; "main.py"; "docs/README.md"; "notes.txt"; "a.py"] 3
  = ["docs/README.md"; "main.py"; "a.py"].
Proof. vm_compute. reflexivity. Qed.

(** X2. When the key files of the input fit in the bound, each of them is in
    the output: the lower tiers never push a key file out. *)
Theorem key_files_always_selected paths max_files p :
  Z.of_nat (length (List.filter is_key_file paths)) <= max_files ->
  p ∈ paths ->
  is_key_file p = true ->
  p ∈ prioritized paths max_files.
Proof.
  intros Hfit Hp Hk.
  set (A1 := select_loop is_key_file (PyList.sort paths) []).
  assert (HA1 : NoDup A1 /\ Forall (fun q => q ∈ List.filter is_key_file paths) A1).
  { apply (select_loop_inv (fun a => NoDup a /\
             Forall (fun q => q ∈ List.filter is_key_file paths) a)).
    - split; constructor.
    - intros a q Hq Hc [Hnd Hall]. split; [by apply append_new_NoDup|].
      apply Forall_forall. intros r [Hr| ->]%append_new_elem_of.
      + by eapply Forall_forall in Hall.
      + apply filter_bool_elem_of. by rewrite <- elem_of_sort. }
  destruct HA1 as [Hnd Hall].
  assert (Hlen : (length A1 <= length (List.filter is_key_file paths))%nat).
  { apply submseteq_length, NoDup_submseteq; [done|].
    intros q Hq. by eapply Forall_forall in Hall. }
  assert (HpA : p ∈ A1).
  { apply select_loop_complete; [by apply elem_of_sort | done]. }
  destruct (selection_key_prefix paths max_files) as [K HK]. fold A1 in HK.
  unfold prioritized, prioritize_files, PyList.slice_to. simpl.
  fold (selection paths max_files).
  destruct (Z.leb_spec 0 max_files); [|lia].
  rewrite HK, take_app_ge by lia. apply elem_of_app. by left.
Qed.

Lemma key_files_always_selected_witness :
  "z/readme.txt" ∈ prioritized ["a.py"; "b.py"; "z/readme.txt"; "c.py"] 2.
Proof.
  apply (key_files_always_selected ["a.py"; "b.py"; "z/readme.txt"; "c.py"] 2).
  - vm_compute. discriminate.
  - apply (bool_decide_unpack _). vm_compute. exact I.
  - reflexivity.
Defined.

(** ** [str] operations on concatenations *)

Section strings.

Implicit Types (s a b : string) (c : ascii).

Lemma str_app_cons c a b : String c a +:+ b = String c (a +:+ b).
Proof. reflexivity. Qed.

Lemma str_app_nil_r s : s +:+ "" = s.
Proof. induction s as [|c s IH]; [done|]. by rewrite str_app_cons, IH. Qed.

Lemma str_app_assoc a b s : (a +:+ b) +:+ s = a +:+ (b +:+ s).
Proof.
  induction a as [|c a IH]; [done|]. by rewrite !str_app_cons, IH.
Qed.

Lemma str_app_nil_inv a b : a +:+ b = "" -> a = "" /\ b = "".
Proof. destruct a; [done|]. rewrite str_app_cons. discriminate. Qed.

Lemma has_char_app c a b :
  has_char c (a +:+ b) = has_char c a || has_char c b.
Proof.
  induction a as [|x a IH]; [done|].
  rewrite str_app_cons. simpl. by rewrite IH, orb_assoc.
Qed.

Lemma split_cons sep s : exists seg segs, PyStr.split sep s = seg :: segs.
Proof.
  destruct s as [|c s]; simpl; [eauto|].
  destruct (decide (c = sep)); [eauto|].
  destruct (PyStr.split sep s); eauto.
Qed.

(** Splitting at a separator splits the list of segments. *)
Lemma split_app sep a b :
  PyStr.split sep (a +:+ String sep b) = PyStr.split sep a ++ PyStr.split sep b.
Proof.
  induction a as [|c a IH].
  - simpl. change ("" +:+ String sep b) with (String sep b). simpl.
    by rewrite decide_True.
  - rewrite str_app_cons. simpl. rewrite IH.
    destruct (decide (c = sep)); [done|].
    by destruct (split_cons sep a) as (seg & segs & ->).
Qed.

Lemma split_no_sep sep s : has_char sep s = false -> PyStr.split sep s = [s].
Proof.
  induction s as [|c s IH]; simpl; [done|].
  intros [Hc Hs]%orb_false_iff. apply bool_decide_eq_false in Hc.
  by rewrite decide_False, IH.
Qed.

(** No segment of a split holds the separator. *)
Lemma split_segments sep s :
  Forall (fun seg => has_char sep seg = false) (PyStr.split sep s).
Proof.
  induction s as [|c s IH]; simpl; [by repeat constructor|].
  destruct (decide (c = sep)); [by constructor|].
  destruct (PyStr.split sep s) as [|seg segs].
  { constructor; [|constructor]. simpl. by rewrite bool_decide_eq_false_2. }
  apply Forall_cons in IH as [Hseg Hsegs]. constructor; [|done].
  simpl. rewrite Hseg. by rewrite bool_decide_eq_false_2.
Qed.

(** Joining with a separator and splitting at it gives the list back, when
    no element holds the separator and there is an element. *)
Lemma split_join sep (l : list string) :
  l <> [] ->
  Forall (fun seg => has_char sep seg = false) l ->
  PyStr.split sep (PyStr.join (String sep "") l) = l.
Proof.
  induction l as [|x l IH]; [done|]. intros _ [Hx Hl]%Forall_cons.
  destruct l as [|y l]; [by apply split_no_sep|].
  change (PyStr.join (String sep "") (x :: y :: l))
    with (x +:+ String sep "" +:+ PyStr.join (String sep "") (y :: l)).
  change (String sep "" +:+ PyStr.join (String sep "") (y :: l))
    with (String sep (PyStr.join (String sep "") (y :: l))).
  rewrite split_app, split_no_sep, IH by done. done.
Qed.

Lemma rstrip_app_sep c s : PyStr.rstrip c (s +:+ String c "") = PyStr.rstrip c s.
Proof.
  induction s as [|x s IH].
  - simpl. change ("" +:+ String c "") with (String c ""). simpl.
    by rewrite decide_True.
  - rewrite str_app_cons. simpl. by rewrite IH.
Qed.

Lemma rstrip_no_sep c b :
  has_char c b = false -> PyStr.rstrip c b = b.
Proof.
  induction b as [|x b IH]; simpl; [done|].
  intros [Hx Hb]%orb_false_iff. apply bool_decide_eq_false in Hx.
  rewrite IH by done. destruct b; [by rewrite decide_False|done].
Qed.

(** Only trailing separators are stripped. *)
Lemma rstrip_app_no_sep c a b :
  has_char c b = false -> b <> "" -> PyStr.rstrip c (a +:+ b) = a +:+ b.
Proof.
  intros Hb Hne. induction a as [|x a IH]; [by apply rstrip_no_sep|].
  rewrite str_app_cons. simpl. rewrite IH.
  destruct (a +:+ b) eqn:Hab; [|done].
  by apply str_app_nil_inv in Hab as [_ ?].
Qed.

Lemma startswith_app s p b :
  PyStr.startswith s p = true -> PyStr.startswith (s +:+ b) p = true.
Proof.
  revert s. induction p as [|x p IH]; intros s.
  { intros _. by destruct (s +:+ b). }
  destruct s as [|y s]; [intros H; discriminate H|].
  rewrite str_app_cons. simpl.
  intros [-> Hs]%andb_true_iff. by rewrite IH.
Qed.

Lemma startswith_nil s : PyStr.startswith s "" = true.
Proof. by destruct s. Qed.

Lemma startswith_self_app p b : PyStr.startswith (p +:+ b) p = true.
Proof.
  induction p as [|x p IH]; [by destruct ("" +:+ b)|].
  rewrite str_app_cons. simpl. by rewrite bool_decide_eq_true_2, IH.
Qed.

Lemma contains_app_l sub a b :
  PyStr.contains sub a = true -> PyStr.contains sub (a +:+ b) = true.
Proof.
  induction a as [|x a IH].
  - change ("" +:+ b) with b. destruct sub; [by destruct b|].
    intros H; discriminate H.
  - cbn [PyStr.contains]. intros [Hs|Ha]%orb_true_iff.
    + apply (startswith_app _ _ b) in Hs.
      rewrite str_app_cons in Hs |- *. cbn [PyStr.contains].
      by rewrite Hs.
    + rewrite str_app_cons. cbn [PyStr.contains].
      rewrite IH by done. apply orb_true_r.
Qed.

Lemma rev_app_acc s acc : String.rev_app s acc = String.rev s +:+ acc.
Proof.
  unfold String.rev. revert acc.
  induction s as [|x s IH]; intros acc; simpl; [done|].
  rewrite (IH (String x acc)), (IH (String x "")).
  by rewrite str_app_assoc.
Qed.

Lemma rev_app a b : String.rev (a +:+ b) = String.rev b +:+ String.rev a.
Proof.
  induction a as [|x a IH].
  - by rewrite str_app_nil_r.
  - rewrite str_app_cons. unfold String.rev at 1 3. simpl.
    rewrite !rev_app_acc, IH. by rewrite str_app_assoc.
Qed.

Lemma endswith_app a b : PyStr.endswith (a +:+ b) b = true.
Proof. unfold PyStr.endswith. rewrite rev_app. apply startswith_self_app. Qed.

Lemma len_app_nat a b :
  String.length (a +:+ b) = (String.length a + String.length b)%nat.
Proof.
  induction a as [|x a IH]; [done|]. rewrite str_app_cons. simpl. by rewrite IH.
Qed.

Lemma has_char_take c n s :
  has_char c s = false -> has_char c (PyStr.take n s) = false.
Proof.
  revert s. induction n as [|n IH]; intros [|x s]; simpl; try done.
  intros [-> Hs]%orb_false_iff. by rewrite IH.
Qed.

Lemma has_char_slice_to c s n :
  has_char c s = false -> has_char c (PyStr.slice_to n s) = false.
Proof. unfold PyStr.slice_to. destruct (0 <=? n); apply has_char_take. Qed.

Lemma str_take_app a b : PyStr.take (String.length a) (a +:+ b) = a.
Proof.
  induction a as [|x a IH]; [by destruct b|].
  rewrite str_app_cons. simpl. by rewrite IH.
Qed.

End strings.

(** ** The Reference Parser on well-formed URLs *)

Lemma index_app_last2 {A} (l : list A) (o r : A) :
  PyList.index (l ++ [o; r]) (-1) = Some r
  /\ PyList.index (l ++ [o; r]) (-2) = Some o.
Proof.
  unfold PyList.index. rewrite length_app. simpl.
  destruct (Z.leb_spec 0 (Z.of_nat (length l + 2) + -1)); [|lia].
  destruct (Z.leb_spec 0 (Z.of_nat (length l + 2) + -2)); [|lia].
  replace (Z.to_nat (Z.of_nat (length l + 2) + -1)) with (length l + 1)%nat
    by lia.
  replace (Z.to_nat (Z.of_nat (length l + 2) + -2)) with (length l + 0)%nat
    by lia.
  by rewrite !lookup_app_r, !Nat.add_sub' by lia.
Qed.

(** What the parser returns for [base/owner/last]. *)
Lemma parse_github_url_segments base owner last :
  PyStr.contains "github.com" base = true ->
  has_char PyStr.slash owner = false ->
  has_char PyStr.slash last = false ->
  last <> "" ->
  parse_github_url (base +:+ "/" +:+ owner +:+ "/" +:+ last)
  = inr (owner, if PyStr.endswith last ".git" then PyStr.slice_to (-4) last
                else last).
Proof.
  intros Hbase Howner Hlast Hne. unfold parse_github_url.
  assert (Hstrip : PyStr.rstrip PyStr.slash
                     (base +:+ "/" +:+ owner +:+ "/" +:+ last)
                   = base +:+ "/" +:+ owner +:+ "/" +:+ last).
  { rewrite <- !str_app_assoc. by apply rstrip_app_no_sep. }
  rewrite Hstrip. cbv zeta.
  rewrite contains_app_l by done.
  change ("/" +:+ owner +:+ "/" +:+ last)
    with (String PyStr.slash (owner +:+ String PyStr.slash last)).
  rewrite !split_app.
  rewrite (split_no_sep PyStr.slash owner), (split_no_sep PyStr.slash last)
    by done.
  change ([owner] ++ [last]) with [owner; last].
  destruct (index_app_last2 (PyStr.split PyStr.slash base) owner last)
    as [-> ->].
  rewrite length_app. simpl.
  destruct (Z.geb_spec
              (Z.of_nat (length (PyStr.split PyStr.slash base) + 2)) 2);
    [done|lia].
Qed.

(** X3. A URL [base/owner/repo], where [base] holds the host marker and
    [owner] and [repo] hold no separator, parses to [(owner, repo)], and so
    does the URL with a [.git] suffix, with a trailing separator, or both. *)
Theorem parse_github_url_shapes base owner repo :
  PyStr.contains "github.com" base = true ->
  has_char PyStr.slash owner = false ->
  has_char PyStr.slash repo = false ->
  repo <> "" ->
  PyStr.endswith repo ".git" = false ->
  let url := base +:+ "/" +:+ owner +:+ "/" +:+ repo in
  parse_github_url url = inr (owner, repo)
  /\ parse_github_url (url +:+ "/") = inr (owner, repo)
  /\ parse_github_url (url +:+ ".git") = inr (owner, repo)
  /\ parse_github_url (url +:+ ".git/") = inr (owner, repo).
Proof.
  intros Hbase Howner Hrepo Hne Hgit url.
  assert (Hplain : parse_github_url url = inr (owner, repo)).
  { unfold url. rewrite parse_github_url_segments by done. by rewrite Hgit. }
  assert (Hdot : parse_github_url (url +:+ ".git") = inr (owner, repo)).
  { unfold url. rewrite !str_app_assoc.
    rewrite parse_github_url_segments; try done.
    - rewrite endswith_app. do 2 f_equal.
      unfold PyStr.slice_to, PyStr.len. rewrite len_app_nat. simpl.
      replace (Z.to_nat (Z.of_nat (String.length repo + 4) + -4))
        with (String.length repo) by lia.
      apply str_take_app.
    - by rewrite has_char_app, Hrepo.
    - intros [_ ?]%str_app_nil_inv. done. }
  split_and!; [done | | done |].
  - unfold parse_github_url. by rewrite rstrip_app_sep.
  - change ".git/" with (".git" +:+ "/"). rewrite <- str_app_assoc.
    unfold parse_github_url. rewrite rstrip_app_sep. apply Hdot.
Qed.

Lemma parse_github_url_shapes_witness :
  parse_github_url "https://github.com/tiangolo/fastapi.git/"
  = inr ("tiangolo", "fastapi").
Proof.
  apply (parse_github_url_shapes "https://github.com" "tiangolo" "fastapi");
    vm_compute; (reflexivity || discriminate).
Defined.

(** X4. Trailing separators do not matter to the parser. *)
Theorem parse_github_url_trailing_slash url :
  parse_github_url (url +:+ "/") = parse_github_url url.
Proof. unfold parse_github_url. by rewrite rstrip_app_sep. Qed.

(** X5. The parser raises nothing but [ValueError] with its one message,
    and the owner and the repository name it returns hold no separator. *)
Theorem parse_github_url_results url :
  match parse_github_url url with
  | inl e => e = ValueError "Invalid GitHub URL format."
  | inr (owner, repo) =>
      has_char PyStr.slash owner = false /\ has_char PyStr.slash repo = false
  end.
Proof.
  unfold parse_github_url.
  set (stripped := PyStr.rstrip PyStr.slash url).
  set (parts := PyStr.split PyStr.slash stripped). cbv zeta.
  destruct (Z.geb_spec (Z.of_nat (length parts)) 2) as [Hge|Hlt];
    [|done].
  destruct (PyStr.contains "github.com" stripped); [|done]. simpl.
  destruct (index_last_two parts) as [[repo Hrepo] [owner Howner]]; [lia|].
  rewrite Hrepo, Howner.
  assert (Hall := split_segments PyStr.slash stripped). fold parts in Hall.
  assert (Hin : forall i x, PyList.index parts i = Some x ->
                            has_char PyStr.slash x = false).
  { intros i x. unfold PyList.index.
    destruct (0 <=? (if 0 <=? i then i else _)); [|done].
    intros Hx. by eapply Forall_lookup_1 in Hall. }
  split; [by eapply Hin|].
  destruct (PyStr.endswith repo ".git"); [|by eapply Hin].
  apply (has_char_slice_to _ _ (-4)). by eapply Hin.
Qed.

(** The parser raises nothing but its [ValueError]. *)
Lemma parse_github_url_inl url e :
  parse_github_url url = inl e -> e = ValueError "Invalid GitHub URL format.".
Proof.
  unfold parse_github_url. cbv zeta.
  set (parts := PyStr.split PyStr.slash (PyStr.rstrip PyStr.slash url)).
  destruct (Z.geb_spec (Z.of_nat (length parts)) 2) as [Hge|Hlt];
    [|by intros [= <-]].
  destruct (PyStr.contains _ _); [|by intros [= <-]]. simpl.
  destruct (index_last_two parts) as [[repo ->] [owner ->]]; [lia|done].
Qed.

(** ** The Orchestrator *)

Section orchestrator.

Context (http_get : remote).

Lemma sort_sort l : PyList.sort (PyList.sort l) = PyList.sort l.
Proof. apply sort_proper, sort_Permutation. Qed.

(** How the selection stage comes to its result. *)
Lemma select_stage_inv url_str owner repo branch file_tree_str priority_paths :
  select_stage http_get url_str
  = inr (owner, repo, branch, file_tree_str, priority_paths) ->
  parse_github_url url_str = inr (owner, repo)
  /\ status_code (http_get (info_url owner repo)) = 200
  /\ branch
     = default "main" (default_branch (json (http_get (info_url owner repo))))
  /\ status_code (http_get (tree_url owner repo branch)) = 200
  /\ exists tree_data,
       tree (json (http_get (tree_url owner repo branch))) = Some tree_data
       /\ file_tree_str
          = PyStr.join (String "010" "")
              (PyList.sort (filter_paths (blob_paths tree_data)))
       /\ priority_paths = prioritized (filter_paths (blob_paths tree_data)) 10.
Proof.
  unfold select_stage.
  destruct (parse_github_url url_str) as [e|[o r]] eqn:Hparse; [done|].
  cbn [mbind result_bind].
  unfold get_repo_info. fold (info_url o r).
  destruct (decide (status_code (http_get (info_url o r)) <> 200)) as [Hi|Hi];
    [done|].
  cbn [mbind result_bind mret result_ret try_except].
  set (b := default "main" (default_branch (json (http_get (info_url o r))))).
  unfold get_repo_tree, read_tree_response. fold (tree_url o r b).
  destruct (decide (status_code (http_get (tree_url o r b)) <> 200))
    as [Ht|Ht]; [done|].
  destruct (tree (json (http_get (tree_url o r b)))) as [tree_data|] eqn:Htree.
  2:{ by destruct (truncated (json (http_get (tree_url o r b)))). }
  cbn [try_except]. fold (blob_paths tree_data).
  unfold build_tree_string, prioritize_files. cbv zeta. cbn [mret result_ret].
  intros [= <- <- <- <- <-].
  split_and!; [done | lia | done | lia |].
  exists tree_data. split_and!; [done..|].
  unfold prioritized, prioritize_files. cbn [fst]. by rewrite sort_sort.
Qed.

(** X6. Whenever the selection stage succeeds, the URL parsed to the owner
    and the repository, the metadata request was answered with status 200,
    the tree request was made for the default branch that the metadata
    names, or for [main] when it names none, and was answered with status
    200 and a listing; the tree listing handed on is the sorted unignored
    blob paths joined by line feeds, and the files to fetch are what
    [prioritize_files] selects from the unignored blob paths with a bound
    of 10, the sort that [build_tree_string] did in place making no
    difference. *)
Theorem select_stage_success url_str owner repo branch file_tree_str
    priority_paths :
  select_stage http_get url_str
  = inr (owner, repo, branch, file_tree_str, priority_paths) ->
  parse_github_url url_str = inr (owner, repo)
  /\ status_code (http_get (info_url owner repo)) = 200
  /\ branch
     = default "main" (default_branch (json (http_get (info_url owner repo))))
  /\ status_code (http_get (tree_url owner repo branch)) = 200
  /\ exists tree_data,
       tree (json (http_get (tree_url owner repo branch))) = Some tree_data
       /\ file_tree_str
          = PyStr.join (String "010" "")
              (PyList.sort (filter_paths (blob_paths tree_data)))
       /\ priority_paths = prioritized (filter_paths (blob_paths tree_data)) 10
       /\ priority_paths
          = prioritized (PyList.sort (filter_paths (blob_paths tree_data))) 10.
Proof.
  intros (Hparse & Hi & Hb & Ht & tree_data & Htree & Hstr & Hprio)
    %select_stage_inv.
  split_and!; [done..|]. exists tree_data. split_and!; [done..|].
  rewrite Hprio. unfold prioritized, prioritize_files. cbn [fst].
  by rewrite sort_sort.
Qed.

(** X8. When the metadata request is not answered with status 200 the
    pipeline raises [GitHubClientError] with the repository and the body of
    that response in the message; nothing else the remote would answer
    matters. *)
Theorem metadata_failure url_str owner repo :
  parse_github_url url_str = inr (owner, repo) ->
  status_code (http_get (info_url owner repo)) <> 200 ->
  process_github_repo http_get url_str
  = inl (GitHubClientError
           ("Could not access repository: " +:+ owner +:+ "/" +:+ repo
            +:+ ". It may be private or invalid. Details: "
            +:+ "Failed to fetch repo info: "
            +:+ text (http_get (info_url owner repo)))).
Proof.
  intros Hparse Hi. unfold process_github_repo, select_stage.
  rewrite Hparse. cbn [mbind result_bind].
  unfold get_repo_info. fold (info_url owner repo).
  rewrite decide_True by done. reflexivity.
Qed.

(** X9. When the metadata request succeeds and the tree request does not
    give a listing, the pipeline raises [GitHubClientError]; the message is
    the orchestrator's prefix followed by the message of [get_repo_tree],
    which names the body of a response that is not 200, or the truncation,
    or an invalid response. *)
Theorem tree_failure url_str owner repo :
  parse_github_url url_str = inr (owner, repo) ->
  status_code (http_get (info_url owner repo)) = 200 ->
  let branch :=
    default "main" (default_branch (json (http_get (info_url owner repo)))) in
  let response := http_get (tree_url owner repo branch) in
  status_code response <> 200 \/ tree (json response) = None ->
  process_github_repo http_get url_str
  = inl (GitHubClientError
           ("Failed to fetch repo tree: " +:+
            (if decide (status_code response <> 200)
             then "Failed to fetch repo tree: " +:+ text response
             else if truncated (json response)
                  then "Repository tree is too large (truncated)."
                  else "Invalid tree response from GitHub."))).
Proof.
  intros Hparse Hi branch response Hfail.
  unfold process_github_repo, select_stage.
  rewrite Hparse. cbn [mbind result_bind].
  unfold get_repo_info. fold (info_url owner repo).
  rewrite decide_False by lia.
  cbn [mbind result_bind mret result_ret try_except]. fold branch.
  unfold get_repo_tree, read_tree_response.
  fold (tree_url owner repo branch). fold response.
  destruct (decide (status_code response <> 200)) as [Ht|Ht]; [done|].
  destruct Hfail as [?|Hnone]; [done|]. rewrite Hnone.
  by destruct (truncated (json response)).
Qed.

(** X10. The files the pipeline fetches: at most 10, no path twice, each the
    path of a blob of the tree listing that no ignore pattern matches and
    that passes the condition of one of the three tiers. *)
Theorem fetch_plan url_str owner repo branch file_tree_str priority_paths :
  select_stage http_get url_str
  = inr (owner, repo, branch, file_tree_str, priority_paths) ->
  (length priority_paths <= 10)%nat
  /\ NoDup priority_paths
  /\ forall p, p ∈ priority_paths ->
       (exists tree_data item,
          tree (json (http_get (tree_url owner repo branch))) = Some tree_data
          /\ item ∈ tree_data /\ type item = "blob" /\ path item = p)
       /\ PathSpec.match_file (PathSpec.from_lines IGNORE_PATTERNS) p = false
       /\ is_key_file p || is_core_file p || is_source_file p = true.
Proof.
  intros (_ & _ & _ & _ & tree_data & Htree & _ & ->)%select_stage_inv.
  split_and!.
  - pose proof (slice_to_length 10
      (selection (filter_paths (blob_paths tree_data)) 10)) as Hlen.
    unfold prioritized, prioritize_files. cbn [fst].
    fold (selection (filter_paths (blob_paths tree_data)) 10). lia.
  - apply prioritized_NoDup.
  - intros p [Hin Htier]%prioritized_sound. split_and!; [|  |done].
    + unfold filter_paths in Hin. apply filter_bool_elem_of in Hin as [Hin _].
      unfold blob_paths in Hin.
      apply list_elem_of_fmap in Hin as (item & -> & Hitem).
      apply filter_bool_elem_of in Hitem as [Hitem Hblob].
      apply bool_decide_eq_true in Hblob. eauto 10.
    + unfold filter_paths in Hin. apply filter_bool_elem_of in Hin as [_ Hm].
      by apply negb_true_iff in Hm.
Qed.

End orchestrator.

Lemma fetch_plan_witness :
  (length ["README.md"; "src/main.py"] <= 10)%nat
  /\ NoDup ["README.md"; "src/main.py"].
Proof.
  destruct (fetch_plan demo_remote "https://github.com/o/r" "o" "r" "dev"
              (PyStr.join (String "010" "") ["README.md"; "src/main.py"])
              ["README.md"; "src/main.py"]) as (Hlen & Hnd & _).
  - vm_compute. reflexivity.
  - split; assumption.
Defined.

Lemma select_stage_success_witness :
  parse_github_url "https://github.com/big/repo" = inr ("big", "repo")
  /\ status_code (demo_truncated_remote (info_url "big" "repo")) = 200
  /\ "main"
     = default "main"
         (default_branch (json (demo_truncated_remote (info_url "big" "repo")))).
Proof.
  destruct (select_stage_success
              (fun url =>
                 if decide (url = tree_url "big" "repo" "main") then
                   {| status_code := 200; text := "";
                      json := {| default_branch := None; tree := Some [];
                                 truncated := false |} |}
                 else demo_truncated_remote url)
              "https://github.com/big/repo" "big" "repo" "main" "" [])
    as (Hparse & Hi & Hb & _).
  - vm_compute. reflexivity.
  - split_and!; [exact Hparse | exact Hi | exact Hb].
Defined.

Lemma metadata_failure_witness :
  process_github_repo demo_remote "https://github.com/no/such"
  = inl (GitHubClientError
           ("Could not access repository: " +:+ "no" +:+ "/" +:+ "such"
            +:+ ". It may be private or invalid. Details: "
            +:+ "Failed to fetch repo info: "
            +:+ text (demo_remote (info_url "no" "such")))).
Proof.
  apply (metadata_failure demo_remote "https://github.com/no/such" "no" "such").
  - vm_compute. reflexivity.
  - vm_compute. discriminate.
Defined.

Lemma tree_failure_witness :
  process_github_repo demo_truncated_remote "https://github.com/big/repo"
  = inl (GitHubClientError
           "Failed to fetch repo tree: Repository tree is too large (truncated).").
Proof.
  apply (tree_failure demo_truncated_remote "https://github.com/big/repo"
           "big" "repo").
  - vm_compute. reflexivity.
  - vm_compute. reflexivity.
  - right. vm_compute. reflexivity.
Defined.

(** ** The context *)

Lemma file_block_not_empty p content a : a +:+ file_block p content <> "".
Proof.
  unfold file_block. intros [_ H]%str_app_nil_inv.
  rewrite str_app_cons in H. discriminate H.
Qed.

(** X11. The context is empty exactly when every fetched text is empty or
    white space: such texts, a failed fetch among them, add nothing, and
    any other text adds a block. *)
Theorem assemble_context_empty (fetched : list (string * string)) :
  assemble_context fetched = ""
  <-> Forall (fun pc => blank pc.2 = true) fetched.
Proof.
  unfold assemble_context, blank.
  assert (Hgen : forall acc,
    fold_left
      (fun context_string '(path, content) =>
         if PyStr.truthy (PyStr.strip content)
         then context_string +:+ file_block path content
         else context_string) fetched acc = ""
    <-> acc = ""
        /\ Forall (fun pc => negb (PyStr.truthy (PyStr.strip pc.2)) = true)
                  fetched).
  { induction fetched as [|[p content] fetched IH]; intros acc; simpl.
    { split; [by intros ->|by intros [-> _]]. }
    rewrite IH, Forall_cons. simpl.
    destruct (PyStr.truthy (PyStr.strip content)); simpl; [|intuition].
    split; [intros [H _]|intros [_ [H _]]]; [|done].
    by apply file_block_not_empty in H. }
  rewrite Hgen. intuition.
Qed.

(** ** The tree listing *)

(** X12. The lines of the tree listing are the paths in lexicographic
    order, one path a line, when there is a path and no path holds a line
    feed; for no path at all the listing is the empty string. *)
Theorem build_tree_string_lines paths :
  paths <> [] ->
  Forall (fun p => has_char "010" p = false) paths ->
  PyStr.split "010" (build_tree_string paths).1 = PyList.sort paths
  /\ Sorted String.le (PyStr.split "010" (build_tree_string paths).1)
  /\ (build_tree_string []).1 = "".
Proof.
  intros Hne Hall.
  assert (Hlines : PyStr.split "010" (build_tree_string paths).1
                   = PyList.sort paths).
  { unfold build_tree_string. cbn [fst]. apply split_join.
    - intros Hnil. apply Hne, Permutation_nil_r.
      by rewrite <- Hnil, sort_Permutation.
    - by rewrite sort_Permutation. }
  split_and!; [done | | done]. rewrite Hlines. apply sort_Sorted.
Qed.

Lemma build_tree_string_lines_witness :
  PyStr.split "010" (build_tree_string ["src/main.py"; "README.md"]).1
  = PyList.sort ["src/main.py"; "README.md"].
Proof.
  apply (build_tree_string_lines ["src/main.py"; "README.md"]).
  - discriminate.
  - repeat constructor.
Defined.

(** X13. The orchestrator hands one list object to [build_tree_string] and
    then to [prioritize_files].  The first call leaves the object sorted,
    the second selects what it would have selected from the unsorted list
    and leaves the object as it found it; no other object is written. *)
Theorem listing_then_selection (st : gmap loc (list string)) (l : loc)
    paths max_files :
  st !! l = Some paths ->
  ('(file_tree_str, st1) ← call_on build_tree_string l st;
   '(priority_paths, st2) ←
      call_on (fun paths => prioritize_files paths max_files) l st1;
   Some (file_tree_str, priority_paths, st1, st2))
  = Some (PyStr.join (String "010" "") (PyList.sort paths),
          prioritized paths max_files,
          <[l := PyList.sort paths]> st,
          <[l := PyList.sort paths]> st).
Proof.
  intros Hl. unfold call_on. rewrite Hl. simpl.
  rewrite lookup_insert_eq. simpl.
  unfold prioritized, prioritize_files. cbn [fst].
  by rewrite insert_insert_eq, sort_sort.
Qed.

Lemma listing_then_selection_witness :
  ('(file_tree_str, st1) ←
      call_on build_tree_string 1%positive {[ 1%positive := ["b.py"; "a.py"] ]};
   '(priority_paths, st2) ←
      call_on (fun paths => prioritize_files paths 10) 1%positive st1;
   Some (file_tree_str, priority_paths, st1, st2))
  = Some (PyStr.join (String "010" "") (PyList.sort ["b.py"; "a.py"]),
          prioritized ["b.py"; "a.py"] 10,
          <[1%positive := PyList.sort ["b.py"; "a.py"]]>
            {[ 1%positive := ["b.py"; "a.py"] ]},
          <[1%positive := PyList.sort ["b.py"; "a.py"]]>
            {[ 1%positive := ["b.py"; "a.py"] ]}).
Proof.
  apply (listing_then_selection {[ 1%positive := ["b.py"; "a.py"] ]}
           1%positive ["b.py"; "a.py"] 10).
  reflexivity.
Defined.

(** ** The ignore rules on the components of a path *)

Section components.

Import PathSpec.

Implicit Types (p : pattern) (seg : string) (segs more : list string).

(** The model reads the expressions as Python does at a line feed. *)
Example match_file_line_feed :
  filter_paths ["x.png" +:+ nl; "a" +:+ nl +:+ "b/node_modules/x";
                "node_modules/x" +:+ nl; "node_modules/x" +:+ nl +:+ "y";
                ".env" +:+ nl; ".env" +:+ nl +:+ nl]
  = ["a" +:+ nl +:+ "b/node_modules/x"; "node_modules/x" +:+ nl +:+ "y";
     ".env" +:+ nl +:+ nl].
Proof. vm_compute. reflexivity. Qed.

Lemma join_cons seg m more :
  join_path (seg :: m :: more)
  = seg +:+ String PyStr.slash (join_path (m :: more)).
Proof. reflexivity. Qed.

Lemma dots_end_no_line_feed s :
  has_char line_feed s = false -> dots_end s = true.
Proof.
  induction s as [|c s IH]; [done|]. cbn [has_char dots_end].
  intros [Hc Hs]%orb_false_iff. apply bool_decide_eq_false in Hc.
  rewrite decide_False by done. by apply IH.
Qed.

Lemma join_path_no_line_feed segs :
  Forall component segs -> has_char line_feed (join_path segs) = false.
Proof.
  induction segs as [|seg more IH]; [done|].
  intros [(_ & _ & Hseg) Hmore]%Forall_cons.
  destruct more as [|m more]; [done|].
  rewrite join_cons, has_char_app, Hseg. cbn [has_char orb].
  by rewrite IH.
Qed.

Lemma below_end_follows T : follows T -> below_end T = true.
Proof.
  intros [->|(r & -> & Hr)]; [done|]. cbn [below_end].
  rewrite decide_True by done. by apply dots_end_no_line_feed.
Qed.

Lemma dir_end_follows T :
  follows T -> dir_end T = negb (bool_decide (T = "")).
Proof.
  intros [->|(r & -> & Hr)]; [done|]. cbn [dir_end].
  rewrite (bool_decide_eq_true_2 (PyStr.slash = PyStr.slash)) by done.
  by rewrite dots_end_no_line_feed.
Qed.

(** A literal name at the start of a path, against the first component.
    [F] is the end of the expression: it fails where a component goes on. *)
Lemma strip_prefix_component (F : string -> bool) name seg T :
  has_char PyStr.slash name = false ->
  has_char PyStr.slash seg = false ->
  has_char line_feed seg = false ->
  (forall c u, c <> PyStr.slash -> c <> line_feed -> F (String c u) = false) ->
  follows T ->
  match strip_prefix name (seg +:+ T) with
  | Some t => F t
  | None => false
  end = bool_decide (seg = name) && F T.
Proof.
  intros Hname Hseg Hlf HF HT. revert seg Hseg Hlf.
  induction name as [|x name IH]; intros [|c seg] Hseg Hlf.
  - change ("" +:+ T) with T. by destruct T.
  - rewrite str_app_cons. cbn [strip_prefix has_char] in *.
    apply orb_false_iff in Hseg as [Hc _]. apply orb_false_iff in Hlf as [Hl _].
    apply bool_decide_eq_false in Hc. apply bool_decide_eq_false in Hl.
    rewrite HF by done. by rewrite bool_decide_eq_false_2.
  - change ("" +:+ T) with T. cbn [has_char] in Hname.
    apply orb_false_iff in Hname as [Hx _]. apply bool_decide_eq_false in Hx.
    rewrite (bool_decide_eq_false_2 ("" = String x name)) by done.
    destruct HT as [->|(r & -> & _)]; [done|]. cbn [strip_prefix].
    by rewrite decide_False.
  - rewrite str_app_cons. cbn [strip_prefix has_char] in *.
    apply orb_false_iff in Hname as [_ Hname].
    apply orb_false_iff in Hseg as [_ Hseg].
    apply orb_false_iff in Hlf as [_ Hlf].
    destruct (decide (x = c)) as [->|Hne].
    + rewrite IH by done. f_equal.
      apply bool_decide_ext. split; [by intros ->|by intros [= ->]].
    + rewrite bool_decide_eq_false_2; [done|]. intros [= ? ?]. by apply Hne.
Qed.

Lemma rev_cons c s : String.rev (String c s) = String.rev s +:+ String c "".
Proof. unfold String.rev at 1. simpl. apply rev_app_acc. Qed.

(** A suffix at the start of a path looks at the first component. *)
Lemma suffix_here_component suffix taken seg T :
  has_char PyStr.slash seg = false ->
  has_char line_feed seg = false ->
  follows T ->
  suffix_here suffix taken (seg +:+ T)
  = PyStr.endswith (String.rev taken +:+ seg) suffix.
Proof.
  intros Hseg Hlf HT. revert taken Hseg Hlf.
  induction seg as [|c seg IH]; intros taken Hseg Hlf.
  - change ("" +:+ T) with T. rewrite str_app_nil_r.
    destruct T as [|x T]; cbn [suffix_here].
    + by rewrite !orb_false_r, andb_true_r.
    + rewrite below_end_follows by done.
      destruct HT as [?|(r & [= -> ->] & _)]; [done|].
      rewrite decide_True by done. by rewrite orb_false_r, andb_true_r.
  - rewrite str_app_cons. cbn [suffix_here has_char] in *.
    apply orb_false_iff in Hseg as [Hc Hseg].
    apply orb_false_iff in Hlf as [Hl Hlf].
    apply bool_decide_eq_false in Hc.
    cbn [below_end]. rewrite !decide_False by done.
    rewrite Hl. cbn [andb]. rewrite andb_false_r. cbn [orb].
    rewrite IH by done. rewrite rev_cons, str_app_assoc. done.
Qed.

(** The pattern at the start of a path looks at the first component only. *)
Lemma match_here_component p seg more :
  pattern_ok p = true ->
  Forall component (seg :: more) ->
  match_here p (join_path (seg :: more))
  = component_match p seg (negb (bool_decide (more = []))).
Proof.
  intros Hp [(_ & Hseg & Hlf) Hmore]%Forall_cons.
  assert (HT : exists T, join_path (seg :: more) = seg +:+ T /\ follows T
                         /\ bool_decide (T = "") = bool_decide (more = [])).
  { destruct more as [|m more].
    - exists "". split_and!; [by rewrite str_app_nil_r | by left | done].
    - eexists. split_and!; [apply join_cons | | done].
      right. eexists. split; [done|]. by apply join_path_no_line_feed. }
  destruct HT as (T & -> & HT & Hnil). rewrite <- Hnil.
  destruct p as [name|suffix|name]; cbn [match_here component_match pattern_ok] in *.
  - apply negb_true_iff in Hp.
    rewrite (strip_prefix_component below_end) by
      (done || (intros c u Hc Hl; cbn [below_end];
                by rewrite decide_False, bool_decide_eq_false_2)).
    by rewrite below_end_follows, andb_true_r.
  - rewrite suffix_here_component by done. done.
  - apply negb_true_iff in Hp.
    rewrite (strip_prefix_component dir_end) by
      (done || (intros c u Hc Hl; cbn [dir_end];
                by rewrite bool_decide_eq_false_2)).
    rewrite dir_end_follows by done. apply andb_comm.
Qed.

(** Inside a component no match is tried. *)
Lemma match_from_end p t seen dots :
  has_char PyStr.slash t = false -> (1 <= seen)%nat ->
  match_from p seen false dots t = false.
Proof.
  revert seen dots. induction t as [|c t IH]; intros seen dots Ht Hseen;
    cbn [match_from].
  - rewrite bool_decide_eq_false_2 by lia. done.
  - cbn [has_char] in Ht. apply orb_false_iff in Ht as [Hc Ht].
    rewrite bool_decide_eq_false_2 by lia. cbn [andb orb].
    rewrite Hc. apply IH; [done|lia].
Qed.

Lemma match_from_skip p t tail seen :
  has_char PyStr.slash t = false ->
  has_char line_feed t = false ->
  (1 <= seen)%nat ->
  match_from p seen false true (t +:+ String PyStr.slash tail)
  = match_from p (seen + String.length t + 1) true true tail.
Proof.
  revert seen. induction t as [|c t IH]; intros seen Ht Hlf Hseen.
  - change ("" +:+ String PyStr.slash tail) with (String PyStr.slash tail).
    cbn [match_from String.length].
    rewrite (bool_decide_eq_false_2 (seen = 0%nat)) by lia.
    rewrite (bool_decide_eq_true_2 (PyStr.slash = PyStr.slash)) by done.
    rewrite (bool_decide_eq_false_2 (PyStr.slash = line_feed)) by done.
    cbn [andb orb negb]. f_equal. lia.
  - cbn [has_char] in Ht, Hlf.
    apply orb_false_iff in Ht as [Hc Ht].
    apply orb_false_iff in Hlf as [Hl Hlf].
    rewrite str_app_cons. cbn [match_from String.length].
    rewrite (bool_decide_eq_false_2 (seen = 0%nat)) by lia.
    cbn [andb orb]. rewrite Hc, Hl. cbn [andb negb].
    rewrite IH by (done || lia). f_equal. lia.
Qed.

(** A pattern matches a path exactly when it matches one of its
    components. *)
Lemma match_from_components p segs seen after_sep :
  pattern_ok p = true ->
  segs <> [] ->
  Forall component segs ->
  bool_decide (seen = 0%nat) || (after_sep && bool_decide (2 <= seen)%nat)
  = true ->
  match_from p seen after_sep true (join_path segs) = pattern_hits p segs.
Proof.
  intros Hp. revert seen after_sep.
  induction segs as [|seg more IH]; intros seen after_sep Hne Hall Hon;
    [done|].
  cbn [pattern_hits]. rewrite <- (match_here_component p seg more) by done.
  apply Forall_cons in Hall as [(Hseg & Hslash & Hlf) Hall].
  destruct seg as [|c t]; [done|].
  cbn [has_char] in Hslash, Hlf.
  apply orb_false_iff in Hslash as [Hc Ht].
  apply orb_false_iff in Hlf as [Hl Hlt].
  destruct more as [|m more].
  - change (join_path [String c t]) with (String c t).
    cbn [match_from pattern_hits].
    rewrite (andb_true_r after_sep), Hon, Hc. cbn [andb].
    by rewrite match_from_end by (done || lia).
  - rewrite join_cons, str_app_cons. cbn [match_from].
    rewrite (andb_true_r after_sep), Hon, Hc, Hl. cbn [andb negb].
    rewrite <- str_app_cons, <- join_cons.
    f_equal. rewrite match_from_skip by (done || lia).
    apply IH; [done | done |].
    rewrite (bool_decide_eq_true_2 (2 <= _)%nat) by lia. apply orb_true_r.
Qed.

Lemma normalize_file_relative segs :
  relative_path segs -> normalize_file (join_path segs) = join_path segs.
Proof.
  intros (Hne & Hall & Hhd). destruct segs as [|seg more]; [done|].
  apply Forall_cons in Hall as [(Hseg & Hslash & _) Hall].
  destruct seg as [|c t]; [done|].
  simpl in Hslash. apply orb_false_iff in Hslash as [Hc Ht].
  apply bool_decide_eq_false in Hc.
  assert (Hshape : exists rest, join_path (String c t :: more) = String c rest
            /\ (t <> "" -> forall s, rest <> String PyStr.slash s)).
  { destruct more as [|m more].
    - exists t. split; [done|]. intros Hne' s ->.
      by simpl in Ht.
    - rewrite join_cons, str_app_cons. eexists. split; [done|].
      intros Hne' s Hs. destruct t as [|x t]; [done|].
      rewrite str_app_cons in Hs. injection Hs as -> _.
      by simpl in Ht. }
  destruct Hshape as (rest & -> & Hrest).
  destruct (decide (c = "."%char)) as [->|Hdot].
  - destruct t as [|x t].
    + by destruct Hhd.
    + destruct rest as [|y rest]; [done|].
      destruct (decide (y = PyStr.slash)) as [->|Hy].
      * by destruct (Hrest ltac:(done) rest).
      * unfold normalize_file.
        destruct y as [[] [] [] [] [] [] [] []]; done.
  - unfold normalize_file.
    destruct c as [[] [] [] [] [] [] [] []]; done.
Qed.

(** On the path of a Git tree, the ignore rules decide component by
    component. *)
Lemma match_file_components segs :
  relative_path segs ->
  match_file (from_lines IGNORE_PATTERNS) (join_path segs)
  = existsb (fun p => pattern_hits p segs) (from_lines IGNORE_PATTERNS).
Proof.
  intros Hrel. unfold match_file. rewrite normalize_file_relative by done.
  destruct Hrel as (Hne & Hall & _).
  assert (Hok : forallb pattern_ok (from_lines IGNORE_PATTERNS) = true)
    by reflexivity.
  revert Hok. generalize (from_lines IGNORE_PATTERNS) as spec.
  induction spec as [|p spec IH]; [done|].
  cbn [forallb existsb]. intros [Hp Hspec]%andb_true_iff.
  by rewrite IH, match_from_components.
Qed.

End components.

(** ** The ignore rules on the Path Filter *)

Lemma pattern_hits_dir name pre post :
  post <> [] ->
  pattern_hits (PathSpec.Dir name) (pre ++ name :: post) = true.
Proof.
  intros Hpost. induction pre as [|seg pre IH]; simpl.
  - rewrite (bool_decide_eq_false_2 (post = [])) by done.
    by rewrite bool_decide_eq_true_2.
  - rewrite IH. apply orb_true_r.
Qed.

Lemma filter_paths_components_inv paths segs :
  relative_path segs ->
  join_path segs ∈ filter_paths paths ->
  join_path segs ∈ paths
  /\ forall p, p ∈ PathSpec.from_lines IGNORE_PATTERNS ->
               pattern_hits p segs = false.
Proof.
  intros Hrel. unfold filter_paths. cbv zeta.
  rewrite filter_bool_elem_of, negb_true_iff, match_file_components by done.
  rewrite <- not_true_iff_false, existsb_exists.
  intros [Hin Hno]. split; [done|].
  intros p Hp%list_elem_of_In. apply not_true_iff_false. intros Hhit.
  apply Hno. eauto.
Qed.

(** X14. A path of a Git tree, made of components that are not empty and
    hold no separator and no line feed, the first of them not [.], passes
    the Path Filter exactly when no component of it is one of the ignored
    names, or ends with one of the ignored suffixes, or is one of the
    ignored directory names and has something below it. *)
Theorem filter_paths_components paths segs :
  relative_path segs ->
  join_path segs ∈ filter_paths paths
  <-> join_path segs ∈ paths
      /\ forall p, p ∈ PathSpec.from_lines IGNORE_PATTERNS ->
                   pattern_hits p segs = false.
Proof.
  intros Hrel. split; [by apply filter_paths_components_inv|].
  unfold filter_paths. cbv zeta.
  rewrite filter_bool_elem_of, negb_true_iff, match_file_components by done.
  rewrite <- not_true_iff_false, existsb_exists.
  intros [Hin Hno]. split; [done|].
  intros (p & Hp%list_elem_of_In & Hhit). by rewrite (Hno p Hp) in Hhit.
Qed.

Lemma filter_paths_components_witness :
  join_path ["src"; "build"] ∈ filter_paths ["src/build"; "build/x.py"]
  <-> join_path ["src"; "build"] ∈ ["src/build"; "build/x.py"]
      /\ forall p, p ∈ PathSpec.from_lines IGNORE_PATTERNS ->
                   pattern_hits p ["src"; "build"] = false.
Proof.
  apply (filter_paths_components ["src/build"; "build/x.py"] ["src"; "build"]).
  split_and!; [discriminate | repeat constructor; discriminate | discriminate].
Defined.

(** X15. On such a path, whatever lies below a directory with one of the
    ignored directory names ([node_modules], [venv], [dist], [.git], ...),
    at any depth, is dropped by the Path Filter. *)
Theorem filter_paths_drops_directory paths name pre post :
  PathSpec.Dir name ∈ PathSpec.from_lines IGNORE_PATTERNS ->
  relative_path (pre ++ name :: post) ->
  post <> [] ->
  join_path (pre ++ name :: post) ∉ filter_paths paths.
Proof.
  intros Hdir Hrel Hpost Hin.
  apply filter_paths_components_inv in Hin as [_ Hno]; [|done].
  specialize (Hno _ Hdir). by rewrite pattern_hits_dir in Hno.
Qed.

Lemma filter_paths_drops_directory_witness :
  join_path (["packages"; "web"] ++ "node_modules" :: ["lodash"; "index.js"])
  ∉ filter_paths ["packages/web/node_modules/lodash/index.js"; "README.md"].
Proof.
  apply (filter_paths_drops_directory
           ["packages/web/node_modules/lodash/index.js"; "README.md"]
           "node_modules" ["packages"; "web"] ["lodash"; "index.js"]).
  - apply list_elem_of_In. vm_compute.
    repeat (first [left; reflexivity | right]).
  - split_and!; [discriminate | repeat constructor; discriminate
                 | discriminate].
  - discriminate.
Defined.

(** ** The summarizer and the endpoint *)

Section endpoint.

Context (http_get : remote) (service : llm).

(** X16. [generate_summary] raises [ValueError] exactly when the client
    cannot be created.  With a client it raises only [RuntimeError], whose
    message is the fixed prefix followed by the message of the failed
    request, or of the empty answer, or of the answer that cannot be
    parsed; an empty answer is not reported as a [ValueError]; and an
    answer that parses is returned as it is. *)
Theorem generate_summary_failures repo_name file_tree file_contents :
  let answer :=
    create service (system_prompt repo_name)
      (user_prompt file_tree (bounded_contents file_contents)) in
  let outcome :=
    generate_summary service repo_name file_tree file_contents in
  (client service = false ->
   outcome = inl (Exn (ValueError "OpenAI API key missing or invalid.")))
  /\ (client service = true ->
      (forall msg, answer = inl msg ->
         outcome = inl (RuntimeError ("Failed to generate summary: " +:+ msg)))
      /\ (answer = inr None \/ answer = inr (Some "") ->
          outcome
          = inl (RuntimeError
                   "Failed to generate summary: Empty response from LLM"))
      /\ (forall content, answer = inr (Some content) -> content <> "" ->
            (forall msg, loads service content = inl msg ->
               outcome
               = inl (RuntimeError ("Failed to generate summary: " +:+ msg)))
            /\ (forall data, loads service content = inr data ->
                  outcome = inr data)))
  /\ (forall f, outcome = inl f ->
        (client service = false
         /\ f = Exn (ValueError "OpenAI API key missing or invalid."))
        \/ (client service = true
            /\ exists msg,
                 f = RuntimeError ("Failed to generate summary: " +:+ msg)
                 /\ (answer = inl msg
                     \/ (msg = "Empty response from LLM"
                         /\ (answer = inr None \/ answer = inr (Some "")))
                     \/ (exists content,
                           answer = inr (Some content) /\ content <> ""
                           /\ loads service content = inl msg)))).
Proof.
  cbv zeta. unfold generate_summary, request_summary. cbv zeta.
  split_and!.
  - by intros ->.
  - intros ->. cbn [negb]. split_and!.
    + by intros msg ->.
    + by intros [-> | ->].
    + intros content -> Hne. destruct content as [|c content]; [done|].
      split; [by intros msg ->|by intros data ->].
  - intros f. destruct (client service); cbn [negb];
      [|intros [= <-]; by left].
    intros Hf. right. split; [done|].
    destruct (create service _ _) as [msg|[[|c content]|]] eqn:Hcreate.
    + injection Hf as <-. eauto.
    + injection Hf as <-. eauto 10.
    + destruct (loads service (String c content)) as [msg|data] eqn:Hloads;
        [|done].
      injection Hf as <-. exists msg. split; [done|]. right. right.
      exists (String c content). done.
    + injection Hf as <-. eauto 10.
Qed.

(** X17. The user prompt is the tree listing, the bounded contents and 38
    code points of framing: the contents take at most 300026 code points of
    it, while the tree listing enters at its full length. *)
Theorem user_prompt_size file_tree file_contents :
  PyStr.len (user_prompt file_tree (bounded_contents file_contents))
  = PyStr.len file_tree + 38
    + PyStr.len (bounded_contents file_contents)
  /\ PyStr.len (user_prompt file_tree (bounded_contents file_contents))
     <= PyStr.len file_tree + 300064
  /\ (PyStr.len file_contents <= 300000 ->
      user_prompt file_tree (bounded_contents file_contents)
      = user_prompt file_tree file_contents).
Proof.
  assert (Hlen : forall s,
    PyStr.len (user_prompt file_tree s)
    = PyStr.len file_tree + 38 + PyStr.len s).
  { intros s. unfold user_prompt. rewrite !len_app.
    change (PyStr.len "Directory Tree:") with 15.
    change (PyStr.len "Key File Contents:") with 18.
    change (PyStr.len nl) with 1. lia. }
  assert (Hb : PyStr.len (bounded_contents file_contents) <= 300026
               /\ (PyStr.len file_contents <= 300000 ->
                   bounded_contents file_contents = file_contents)).
  { unfold bounded_contents, max_chars.
    destruct (Z.gtb_spec (PyStr.len file_contents) 300000) as [Hgt|Hle].
    - split; [|lia]. rewrite len_app.
      change (PyStr.len truncation_marker) with 26.
      unfold PyStr.slice_to, PyStr.len. change (0 <=? 300000) with true.
      cbv iota. rewrite str_take_length. lia.
    - split; [lia|done]. }
  destruct Hb as [Hb Hid]. split_and!.
  - apply Hlen.
  - rewrite Hlen. lia.
  - intros Hle. by rewrite Hid.
Qed.

(** X18. How the endpoint answers the failures of the pipeline.  A
    [ValueError] or a [GitHubClientError] of the stages before the
    summarizer is answered with 400 and the message of the exception.  When
    those stages succeed, a client that cannot be created is answered with
    400 and its message, and a [RuntimeError] of the summarizer is answered
    with 500 and one fixed message that shows none of its detail. *)
Theorem summarize_repo_replies github_url :
  (forall msg,
     process_github_repo http_get github_url = inl (ValueError msg)
     \/ process_github_repo http_get github_url = inl (GitHubClientError msg)
     ->
     summarize_repo http_get service github_url
     = {| status := 400; body := ErrorDetail "error" msg |})
  /\ (forall repo file_tree_str context_string,
        process_github_repo http_get github_url
        = inr (repo, file_tree_str, context_string) ->
        (client service = false ->
         summarize_repo http_get service github_url
         = {| status := 400;
              body := ErrorDetail "error"
                        "OpenAI API key missing or invalid." |})
        /\ (forall msg,
              generate_summary service repo file_tree_str context_string
              = inl (RuntimeError msg) ->
              summarize_repo http_get service github_url
              = {| status := 500;
                   body := ErrorDetail "error"
                             "An internal server error occurred." |})).
Proof.
  unfold summarize_repo, summarize. split.
  - by intros msg [-> | ->].
  - intros repo file_tree_str context_string ->. split.
    + intros Hc. unfold generate_summary. by rewrite Hc.
    + by intros msg ->.
Qed.

(** X19. A URL that the parser rejects is answered with 400 and the
    parser's message, whatever the remote and the summarization service
    would do. *)
Theorem summarize_repo_invalid_url github_url e :
  parse_github_url github_url = inl e ->
  summarize_repo http_get service github_url
  = {| status := 400;
       body := ErrorDetail "error" "Invalid GitHub URL format." |}.
Proof.
  intros Hparse. pose proof (parse_github_url_inl _ _ Hparse) as ->.
  unfold summarize_repo, summarize, process_github_repo, select_stage.
  by rewrite Hparse.
Qed.

End endpoint.

Lemma generate_summary_failures_witness :
  generate_summary (demo_llm (Some "")) "r" "README.md" ""
  = inl (RuntimeError "Failed to generate summary: Empty response from LLM")
  /\ generate_summary
       {| client := false; create := fun _ _ => inr None;
          loads := fun _ => inl "" |} "r" "README.md" ""
     = inl (Exn (ValueError "OpenAI API key missing or invalid.")).
Proof.
  split.
  - apply (generate_summary_failures (demo_llm (Some "")) "r" "README.md" "");
      [reflexivity | right; reflexivity].
  - apply (generate_summary_failures
             {| client := false; create := fun _ _ => inr None;
                loads := fun _ => inl "" |} "r" "README.md" "").
    reflexivity.
Defined.

Lemma summarize_repo_replies_witness :
  summarize_repo demo_remote (demo_llm (Some "oops")) "https://github.com/o/r"
  = {| status := 500;
       body := ErrorDetail "error" "An internal server error occurred." |}.
Proof.
  destruct (summarize_repo_replies demo_remote (demo_llm (Some "oops"))
              "https://github.com/o/r") as [_ Hok].
  destruct (Hok "r" ("README.md" +:+ nl +:+ "src/main.py")
              (nl +:+ nl +:+ "--- FILE: src/main.py ---" +:+ nl +:+ "print(1)"
               +:+ nl)) as [_ Hfail].
  - vm_compute. reflexivity.
  - apply (Hfail "Failed to generate summary: Expecting value: line 1 column 1 (char 0)").
    vm_compute. reflexivity.
Defined.

Lemma summarize_repo_invalid_url_witness :
  summarize_repo demo_remote (demo_llm None) "https://example.org/a/b"
  = {| status := 400;
       body := ErrorDetail "error" "Invalid GitHub URL format." |}.
Proof.
  apply (summarize_repo_invalid_url demo_remote (demo_llm None)
           "https://example.org/a/b"
           (ValueError "Invalid GitHub URL format.")).
  vm_compute. reflexivity.
Defined.

Example summarize_repo_demo :
  summarize_repo demo_remote (demo_llm (Some "{}")) "https://github.com/o/r"
  = {| status := 200;
       body := Summary "No summary provided." [] "No structure provided." |}
  /\ summarize_repo demo_remote (demo_llm (Some "oops"))
       "https://github.com/o/r"
     = {| status := 500;
          body := ErrorDetail "error" "An internal server error occurred." |}
  /\ summarize_repo demo_truncated_remote (demo_llm (Some "{}"))
       "https://github.com/big/repo"
     = {| status := 400;
          body := ErrorDetail "error"
            "Failed to fetch repo tree: Repository tree is too large (truncated)." |}.
Proof. vm_compute. done. Qed.

(** ** The bound of the File Prioritizer *)

Lemma prioritized_unbounded paths max_files :
  0 <= max_files ->
  prioritized paths max_files
  = take (Z.to_nat max_files) (unbounded_selection paths).
Proof.
  intros Hn. unfold prioritized, prioritize_files, PyList.slice_to.
  cbn [fst]. destruct (Z.leb_spec 0 max_files); [|lia].
  by rewrite fill_loop_take.
Qed.

(** X20. Raising the bound only adds files at the end: for bounds
    [0 <= n <= m], the output for [n] is the first [n] entries of the output
    for [m]. *)
Theorem prioritize_files_monotone paths n m :
  0 <= n -> n <= m ->
  prioritized paths n = take (Z.to_nat n) (prioritized paths m).
Proof.
  intros Hn Hm. rewrite !prioritized_unbounded by lia.
  rewrite take_take. f_equal. lia.
Qed.

Lemma prioritize_files_monotone_witness :
  prioritized ["b.py"; "README.md"; "main.py"; "a.py"] 2
  = take (Z.to_nat 2) (prioritized ["b.py"; "README.md"; "main.py"; "a.py"] 3).
Proof.
  apply (prioritize_files_monotone ["b.py"; "README.md"; "main.py"; "a.py"]
           2 3); lia.
Defined.

(** ** The content fetches and the context *)

Lemma contains_self_app sub b : PyStr.contains sub (sub +:+ b) = true.
Proof.
  destruct (sub +:+ b) eqn:Hs; cbn [PyStr.contains];
    by rewrite <- Hs, startswith_self_app.
Qed.

Lemma contains_app_r sub a b :
  PyStr.contains sub b = true -> PyStr.contains sub (a +:+ b) = true.
Proof.
  intros Hb. induction a as [|x a IH]; [done|].
  rewrite str_app_cons. cbn [PyStr.contains]. rewrite IH. apply orb_true_r.
Qed.

(** The block of a file, code point by code point. *)
Lemma file_block_app p content rest :
  file_block p content +:+ rest
  = nl +:+ nl +:+ "--- FILE: " +:+ p +:+ " ---" +:+ nl +:+ content +:+ nl
    +:+ rest.
Proof. unfold file_block, nl. by rewrite !str_app_assoc. Qed.

(** The loop that builds the context appends, for each fetched text that is
    not blank, its block. *)
Lemma assemble_context_blocks (fetched : list (string * string)) :
  assemble_context fetched
  = foldr (fun '(p, content) rest =>
             if PyStr.truthy (PyStr.strip content)
             then file_block p content +:+ rest else rest)
          "" fetched.
Proof.
  unfold assemble_context.
  assert (Hgen : forall acc,
    fold_left
      (fun context_string '(path, content) =>
         if PyStr.truthy (PyStr.strip content)
         then context_string +:+ file_block path content
         else context_string) fetched acc
    = acc +:+ foldr (fun '(p, content) rest =>
                       if PyStr.truthy (PyStr.strip content)
                       then file_block p content +:+ rest else rest)
                    "" fetched).
  { induction fetched as [|[p content] fetched IH]; intros acc;
      cbn [fold_left foldr].
    - by rewrite str_app_nil_r.
    - rewrite IH. destruct (PyStr.truthy (PyStr.strip content)); [|done].
      by rewrite str_app_assoc. }
  apply Hgen.
Qed.

Section fetches.

Context (http_get : remote) (owner repo branch : string).

Lemma get_raw_file_content_failed p :
  status_code (http_get (raw_url owner repo branch p)) <> 200 ->
  get_raw_file_content http_get owner repo branch p = "".
Proof.
  intros Hs. unfold get_raw_file_content, read_raw_response.
  by rewrite decide_True.
Qed.

Lemma get_raw_file_content_ok p :
  status_code (http_get (raw_url owner repo branch p)) = 200 ->
  get_raw_file_content http_get owner repo branch p
  = text (http_get (raw_url owner repo branch p)).
Proof.
  intros Hs. unfold get_raw_file_content, read_raw_response.
  by rewrite decide_False by lia.
Qed.

(** A failed fetch adds nothing to the context, so the context is the one
    of the fetches that succeeded. *)
Lemma assemble_context_ok paths :
  assemble_context
    (zip paths (fetch_contents http_get owner repo branch paths))
  = assemble_context (fetched_ok http_get owner repo branch paths).
Proof.
  unfold assemble_context, fetch_contents, fetched_ok.
  generalize "" as context_string.
  induction paths as [|p paths IH]; intros context_string; [done|].
  cbn [fmap list_fmap zip zip_with fold_left List.filter].
  case_bool_decide as Hs.
  - rewrite get_raw_file_content_ok by done.
    cbn [fmap list_fmap fold_left]. apply IH.
  - rewrite get_raw_file_content_failed by done.
    change (PyStr.truthy (PyStr.strip "")) with false. cbv iota. apply IH.
Qed.

(** The context, written out: one block for each path that was answered
    with status 200 and a text that is not blank, in the order of the
    paths. *)
Lemma context_written_out paths :
  assemble_context
    (zip paths (fetch_contents http_get owner repo branch paths))
  = foldr (fun p rest =>
             nl +:+ nl +:+ "--- FILE: " +:+ p +:+ " ---" +:+ nl
             +:+ text (http_get (raw_url owner repo branch p)) +:+ nl
             +:+ rest)
          ""
          (List.filter
             (fun p =>
                bool_decide
                  (status_code (http_get (raw_url owner repo branch p)) = 200)
                && PyStr.truthy
                     (PyStr.strip
                        (text (http_get (raw_url owner repo branch p)))))
             paths).
Proof.
  rewrite assemble_context_ok, assemble_context_blocks. unfold fetched_ok.
  induction paths as [|p paths IH]; [done|].
  cbn [List.filter]. case_bool_decide as Hs; cbn [andb]; [|apply IH].
  cbn [fmap list_fmap foldr].
  destruct (PyStr.truthy _); [|apply IH].
  cbn [foldr]. by rewrite file_block_app, <- IH.
Qed.

Lemma block_in_context (block : string -> string) (keep : string -> bool)
    paths p :
  p ∈ paths -> keep p = true ->
  PyStr.contains (block p)
    (foldr (fun q rest => block q +:+ rest) "" (List.filter keep paths))
  = true.
Proof.
  intros Hp Hk. induction paths as [|q paths IH]; [by apply elem_of_nil in Hp|].
  cbn [List.filter]. apply elem_of_cons in Hp as [<-|Hp].
  - rewrite Hk. cbn [foldr]. apply contains_self_app.
  - destruct (keep q); [|by apply IH]. cbn [foldr].
    apply contains_app_r. by apply IH.
Qed.

(** C7. A fetch that is answered with a status other than 200 yields the
    empty string, and one answered with 200 yields the text of the answer.
    Once the files to fetch are chosen, the pipeline cannot fail before it
    reaches the summarizer, whatever the status of each fetch.  The context
    it hands over is, character for character, one block for each path that
    was answered with status 200 and a text that is not blank, in the order
    of the prioritized paths, each block made of the path and the text
    fetched for that path; so every such fetch is in the context under its
    own path, and a failed fetch leaves no trace. *)
Theorem fetch_failures_absorbed url_str file_tree_str priority_paths :
  select_stage http_get url_str
  = inr (owner, repo, branch, file_tree_str, priority_paths) ->
  (forall p, status_code (http_get (raw_url owner repo branch p)) <> 200 ->
     get_raw_file_content http_get owner repo branch p = "")
  /\ (forall i p, priority_paths !! i = Some p ->
        fetch_contents http_get owner repo branch priority_paths !! i
        = Some (get_raw_file_content http_get owner repo branch p))
  /\ process_github_repo http_get url_str
     = inr (repo, file_tree_str,
            assemble_context
              (fetched_ok http_get owner repo branch priority_paths))
  /\ (forall p, status_code (http_get (raw_url owner repo branch p)) = 200 ->
        get_raw_file_content http_get owner repo branch p
        = text (http_get (raw_url owner repo branch p)))
  /\ exists context_string,
       process_github_repo http_get url_str
       = inr (repo, file_tree_str, context_string)
       /\ context_string
          = foldr (fun p rest =>
                     nl +:+ nl +:+ "--- FILE: " +:+ p +:+ " ---" +:+ nl
                     +:+ text (http_get (raw_url owner repo branch p)) +:+ nl
                     +:+ rest)
                  ""
                  (List.filter
                     (fun p =>
                        bool_decide
                          (status_code
                             (http_get (raw_url owner repo branch p)) = 200)
                        && PyStr.truthy
                             (PyStr.strip
                                (text
                                   (http_get
                                      (raw_url owner repo branch p)))))
                     priority_paths)
       /\ forall p,
            p ∈ priority_paths ->
            status_code (http_get (raw_url owner repo branch p)) = 200 ->
            PyStr.truthy
              (PyStr.strip (text (http_get (raw_url owner repo branch p))))
            = true ->
            PyStr.contains
              (nl +:+ nl +:+ "--- FILE: " +:+ p +:+ " ---" +:+ nl
               +:+ text (http_get (raw_url owner repo branch p)) +:+ nl)
              context_string
            = true.
Proof.
  intros Hsel. split_and!.
  - apply get_raw_file_content_failed.
  - intros i p Hi. unfold fetch_contents. by rewrite list_lookup_fmap, Hi.
  - unfold process_github_repo. rewrite Hsel. simpl.
    by rewrite assemble_context_ok.
  - apply get_raw_file_content_ok.
  - eexists. split_and!.
    + unfold process_github_repo. rewrite Hsel. simpl. reflexivity.
    + apply context_written_out.
    + intros p Hp Hs Ht. rewrite context_written_out.
      pose proof (block_in_context
        (fun q => nl +:+ nl +:+ "--- FILE: " +:+ q +:+ " ---" +:+ nl
                  +:+ text (http_get (raw_url owner repo branch q)) +:+ nl)
        (fun q => bool_decide
                    (status_code (http_get (raw_url owner repo branch q))
                     = 200)
                  && PyStr.truthy
                       (PyStr.strip
                          (text (http_get (raw_url owner repo branch q)))))
        priority_paths p Hp) as Hin.
      cbv beta in Hin. rewrite bool_decide_eq_true_2, Ht in Hin by done.
      specialize (Hin eq_refl).
      erewrite foldr_ext; [exact Hin | | done | done].
      intros q rest. cbv beta. by rewrite !str_app_assoc.
Qed.

End fetches.

Lemma fetch_failures_absorbed_witness :
  process_github_repo demo_remote "https://github.com/o/r.git/"
  = inr ("r", "README.md" +:+ nl +:+ "src/main.py",
         nl +:+ nl +:+ "--- FILE: src/main.py ---" +:+ nl +:+ "print(1)"
         +:+ nl).
Proof.
  destruct (fetch_failures_absorbed demo_remote "o" "r" "dev"
              "https://github.com/o/r.git/"
              ("README.md" +:+ nl +:+ "src/main.py")
              ["README.md"; "src/main.py"])
    as (_ & _ & _ & _ & context_string & Hrun & -> & _).
  - vm_compute. reflexivity.
  - exact Hrun.
Defined.

Example demo_context :
  process_github_repo demo_remote "https://github.com/o/r.git/"
  = inr ("r", "README.md" +:+ String "010" "src/main.py",
         file_block "src/main.py" "print(1)").
Proof. vm_compute. reflexivity. Qed.
